(** * Bank reconciliation engine (src/app.py): a shallow embedding

    The development follows the class [BankReconciliation] of [src/app.py]:
    the amount parser, the PDF table extractor, the entry filter of the
    constructor, the matcher of [reconcile], and the statistics and TOTAL-row
    pass of [generate_report].

    Modelling conventions.
    - Python [float] is IEEE-754 binary64: [spec_float] of the Standard
      Library at precision 53 and maximal exponent 1024, round to nearest
      even.
    - Python [str] is [string]; text is taken to be ASCII (code points
      below 128), which is where [upper], [strip] and [repr] below agree
      with Python's.
    - An exception is a value of [exn]; code that can raise lives in [Py].
    - A data frame is the list of its rows in index order (the index is the
      default [RangeIndex], so a row's label is its position). *)

From Stdlib Require Import ZArith String Ascii Bool Lia DecimalString.
From Stdlib Require Import Floats.SpecFloat.
From Stdlib Require Import QArith Qpower Sorted DecimalN DecimalPos.
From stdpp Require Import base option list gmap strings.

Close Scope Q_scope.

Open Scope Z_scope.
Open Scope string_scope.
Open Scope list_scope.

(** ** Exceptions *)

Inductive exn :=
| ValueError
| KeyError (key : string)
| IndexError
| ZeroDivisionError
| HTTPException (status_code : Z).

Inductive Py (A : Type) :=
| Ok (a : A)
| Raise (e : exn).
Arguments Ok {A} a.
Arguments Raise {A} e.

#[global] Instance Py_ret : MRet Py := fun _ a => Ok a.

#[global] Instance Py_bind : MBind Py := fun _ _ k m =>
  match m with
  | Ok a => k a
  | Raise e => Raise e
  end.

(** [try: m  except: return d] with a bare [except]. *)
Definition try_except {A} (m : Py A) (d : A) : A :=
  match m with
  | Ok a => a
  | Raise _ => d
  end.

(** [try: m  except: h] with a bare [except], itself a computation. *)
Definition try_ {A} (m : Py A) (h : Py A) : Py A :=
  match m with
  | Ok a => Ok a
  | Raise _ => h
  end.

(** ** Strings *)

Module Str.

Definition code (c : ascii) : nat := nat_of_ascii c.

(** [str.isspace] on ASCII: tab, LF, VT, FF, CR, the separators
    0x1c-0x1f and the space. *)
Definition isspace (c : ascii) : bool :=
  let n := code c in
  ((9 <=? n) && (n <=? 13) || (28 <=? n) && (n <=? 32))%nat.

Definition isdigit (c : ascii) : bool :=
  let n := code c in ((48 <=? n) && (n <=? 57))%nat.

Definition is_empty (s : string) : bool :=
  match s with EmptyString => true | _ => false end.

Fixpoint lstrip (s : string) : string :=
  match s with
  | String c s' => if isspace c then lstrip s' else s
  | EmptyString => EmptyString
  end.

Fixpoint rstrip (s : string) : string :=
  match s with
  | String c s' =>
      let r := rstrip s' in
      if is_empty r && isspace c then EmptyString else String c r
  | EmptyString => EmptyString
  end.

(** [s.strip()] *)
Definition strip (s : string) : string := rstrip (lstrip s).

Definition upper_char (c : ascii) : ascii :=
  let n := code c in
  if ((97 <=? n) && (n <=? 122))%nat then ascii_of_nat (n - 32) else c.

(** [s.upper()] *)
Fixpoint upper (s : string) : string :=
  match s with
  | String c s' => String (upper_char c) (upper s')
  | EmptyString => EmptyString
  end.

Fixpoint startswith (p s : string) : bool :=
  match p, s with
  | EmptyString, _ => true
  | String a p', String b s' => Ascii.eqb a b && startswith p' s'
  | String _ _, EmptyString => false
  end.

(** [sub in s] *)
Fixpoint contains (sub s : string) : bool :=
  startswith sub s ||
  match s with
  | String _ s' => contains sub s'
  | EmptyString => false
  end.

(** [s.replace(old, new)] for a non-empty [old]: left to right, without
    overlap.  [skip] counts the characters of a match still to drop. *)
Fixpoint replace_from (skip : nat) (old new s : string) : string :=
  match s with
  | EmptyString => EmptyString
  | String c s' =>
      match skip with
      | S k => replace_from k old new s'
      | O =>
          if startswith old s
          then new ++ replace_from (String.length old - 1) old new s'
          else String c (replace_from O old new s')
      end
  end.

Definition replace (old new s : string) : string := replace_from 0 old new s.

Definition eqb (a b : string) : bool := String.eqb a b.

(** [sep.join(l)] *)
Fixpoint join (sep : string) (l : list string) : string :=
  match l with
  | [] => ""
  | [x] => x
  | x :: l' => x ++ sep ++ join sep l'
  end.

Definition hex_digit (n : nat) : ascii :=
  if (n <? 10)%nat then ascii_of_nat (48 + n) else ascii_of_nat (87 + n).

Fixpoint has_char (c : ascii) (s : string) : bool :=
  match s with
  | String d s' => Ascii.eqb c d || has_char c s'
  | EmptyString => false
  end.

(** One character of [repr(s)], [q] being the quote chosen. *)
Definition repr_char (q : ascii) (c : ascii) : string :=
  let n := code c in
  if Ascii.eqb c "\" then "\\"
  else if Ascii.eqb c q then String "\" (String q "")
  else if (n =? 9)%nat then "\t"
  else if (n =? 10)%nat then "\n"
  else if (n =? 13)%nat then "\r"
  else if ((n <? 32) || (n =? 127))%nat
       then String "\" (String "x" (String (hex_digit (n / 16))
              (String (hex_digit (n mod 16)) "")))
  else String c "".

Fixpoint repr_body (q : ascii) (s : string) : string :=
  match s with
  | String c s' => repr_char q c ++ repr_body q s'
  | EmptyString => EmptyString
  end.

(** [repr(s)]: single quotes, unless [s] has a single quote and no double
    quote. *)
Definition dquote : ascii := ascii_of_nat 34.

Definition repr (s : string) : string :=
  let q : ascii :=
    if has_char "'" s && negb (has_char dquote s) then dquote else "'"%char in
  String q (repr_body q s ++ String q "").

(** [s[1:]] *)
Definition tail (s : string) : string :=
  match s with String _ s' => s' | EmptyString => EmptyString end.

(** The longest prefix of decimal digits, and what follows it. *)
Fixpoint span_digits (s : string) : string * string :=
  match s with
  | String c s' =>
      if isdigit c
      then let '(d, r) := span_digits s' in (String c d, r)
      else (EmptyString, s)
  | EmptyString => (EmptyString, EmptyString)
  end.

(** The number a string of decimal digits denotes. *)
Definition digits_value (s : string) : Z :=
  fold_left (fun acc c => 10 * acc + Z.of_nat (code c - 48))
    (list_ascii_of_string s) 0.

(** [str(n)] for a natural number. *)
Definition of_N (n : N) : string := NilZero.string_of_uint (N.to_uint n).

End Str.

(** ** Binary64 floating point *)

Module F64.

Definition prec : Z := 53.
Definition emax : Z := 1024.

Definition float : Type := spec_float.

Definition add : float -> float -> float := SFadd prec emax.
Definition sub : float -> float -> float := SFsub prec emax.
Definition mul : float -> float -> float := SFmul prec emax.
Definition abs : float -> float := SFabs.
Definition ltb : float -> float -> bool := SFltb.
Definition leb : float -> float -> bool := SFleb.
Definition eqb : float -> float -> bool := SFeqb.

Definition nan : float := S754_nan.
Definition inf (neg : bool) : float := S754_infinity neg.
Definition zero : float := S754_zero false.

(** [float(n)] for an integer [n] (round to nearest even). *)
Definition of_Z (n : Z) : float := binary_normalize prec emax n 0 false.

Definition one : float := of_Z 1.

(** The correctly rounded quotient [m1 / m2] of two positive integers. *)
Definition div_pos (neg : bool) (m1 m2 : positive) : float :=
  let '(q, e, l) := SFdiv_core_binary prec emax (Zpos m1) 0 (Zpos m2) 0 in
  binary_round_aux prec emax neg q e l.

(** The double nearest to [a / b] for non-negative integers, [b] not 0. *)
Definition quotient (a b : N) : float :=
  match a, b with
  | Npos p, Npos q => div_pos false p q
  | _, _ => zero
  end.

(** [a / b] on two non-negative integers (true division). *)
Definition truediv (a b : N) : Py float :=
  if (b =? 0)%N then Raise ZeroDivisionError else Ok (quotient a b).

(** The double nearest to [m * 10^e], signed by [neg]. *)
Definition of_decimal (neg : bool) (m : Z) (e : Z) : float :=
  match m, e with
  | Zpos p, Zneg k => div_pos neg p (Pos.pow 10 k)
  | Zpos p, _ => binary_normalize prec emax (if neg then - (m * 10 ^ e) else m * 10 ^ e) 0 neg
  | _, _ => S754_zero neg
  end.

(** Underscores in a numeric literal must stand between two digits. *)
Fixpoint underscores_ok (prev : ascii) (s : string) : bool :=
  match s with
  | String c s' =>
      (if Ascii.eqb c "_"
       then Str.isdigit prev &&
            match s' with String d _ => Str.isdigit d | EmptyString => false end
       else true) && underscores_ok c s'
  | EmptyString => true
  end.

(** The exponent part: empty, or [e] or [E], an optional sign and
    digits up to the end of the text. *)
Definition parse_exponent (s : string) : Py Z :=
  match s with
  | EmptyString => Ok 0
  | String c r =>
      if Ascii.eqb (Str.upper_char c) "E" then
        let '(neg, r) :=
          match r with
          | String "-" r' => (true, r')
          | String "+" r' => (false, r')
          | _ => (false, r)
          end in
        let '(d, rest) := Str.span_digits r in
        if Str.is_empty d || negb (Str.is_empty rest) then Raise ValueError
        else Ok (if neg then - Str.digits_value d else Str.digits_value d)
      else Raise ValueError
  end.

(** [float(s)] on a string: surrounding whitespace is dropped; the text
    is a sign followed by [inf], [infinity], [nan] (in any case) or by a
    decimal literal with optional fraction and exponent; anything else
    raises [ValueError]. *)
Definition of_string (s : string) : Py float :=
  let s := Str.strip s in
  if negb (underscores_ok "x" s) then Raise ValueError else
  let s := Str.replace "_" "" s in
  let '(neg, s) :=
    match s with
    | String "-" r => (true, r)
    | String "+" r => (false, r)
    | _ => (false, s)
    end in
  let u := Str.upper s in
  if Str.eqb u "INF" || Str.eqb u "INFINITY" then Ok (inf neg)
  else if Str.eqb u "NAN" then Ok nan
  else
    let '(ip, r1) := Str.span_digits s in
    let '(fp, r2) :=
      match r1 with
      | String "." r => Str.span_digits r
      | _ => (EmptyString, r1)
      end in
    if Str.is_empty ip && Str.is_empty fp then Raise ValueError else
    e ← parse_exponent r2;
    Ok (of_decimal neg (Str.digits_value (ip ++ fp))
          (e - Z.of_nat (String.length fp))).

(** [f"{x:.1f}"]: one digit after the point, the exact value rounded
    half to even. *)
Definition format_1f (x : float) : string :=
  match x with
  | S754_nan => "nan"
  | S754_infinity s => if s then "-inf" else "inf"
  | S754_zero s => if s then "-0.0" else "0.0"
  | S754_finite s m e =>
      let n :=
        match e with
        | Zneg k =>
            let d := 2 ^ Zpos k in
            let q := (10 * Zpos m) / d in
            let r := (10 * Zpos m) mod d in
            match Z.compare (2 * r) d with
            | Lt => q
            | Gt => q + 1
            | Eq => if Z.even q then q else q + 1
            end
        | _ => 10 * Zpos m * 2 ^ e
        end in
      (if s then "-" else "") ++ Str.of_N (Z.to_N (n / 10)) ++ "."
        ++ Str.of_N (Z.to_N (n mod 10))
  end.

End F64.

(** ** Data model *)

(** A cell of a table that [pdfplumber] extracted: its text, or [None]. *)
Definition cell : Type := option string.
Definition trow : Type := list cell.
Definition table : Type := list trow.
Definition page : Type := list table.

(** The truth value of a cell ([if cell]): neither [None] nor empty. *)
Definition truthy (c : cell) : bool :=
  match c with
  | Some s => negb (Str.is_empty s)
  | None => false
  end.

(** [str(cell)] *)
Definition str_cell (c : cell) : string :=
  match c with
  | Some s => s
  | None => "None"
  end.

Definition repr_cell (c : cell) : string :=
  match c with
  | Some s => Str.repr s
  | None => "None"
  end.

(** [str(row)]: the rendering of a list, each cell by its [repr]. *)
Definition str_row (row : trow) : string :=
  "[" ++ Str.join ", " (map repr_cell row) ++ "]".

(** A statement transaction, one dictionary of [transactions]. *)
Record txn := {
  date : string;
  journal_number : string;
  description : string;
  amount : F64.float;
}.

(** A data frame built from a list of records: it has the records' keys
    as columns, and no column at all when the list is empty. *)
Record DataFrame (R : Type) := {
  columns : list string;
  rows : list R;
}.
Arguments columns {R} d.
Arguments rows {R} d.

Definition DataFrame_of_records {R} (keys : list string) (l : list R) : DataFrame R :=
  {| columns := match l with [] => [] | _ => keys end; rows := l |}.

(** [df[col]]: the column must exist. *)
Definition getitem {R} (df : DataFrame R) (col : string) : Py (list R) :=
  if existsb (Str.eqb col) (columns df) then Ok (rows df) else Raise (KeyError col).

Module Ledger.
(** A row of the uploaded ledger.  [ChequeDDNo] is [None] for a null
    cell (NaN, None) and otherwise the text [str] gives for the value;
    [extra] holds the columns the engine passes through. *)
Record row := {
  ChequeDDNo : option string;
  Amount : F64.float;
  extra : list (string * string);
}.

(** A row of [self.data_entry_df]: the ledger row and the derived column
    [_ChequeDDNo_str]. *)
Record entry := {
  src : row;
  ChequeDDNo_str : string;
}.
End Ledger.

(** ** The amount parser *)

Definition parse_amount (amount_str : option string) : Py F64.float :=
  match amount_str with
  | None => Ok F64.zero
  | Some s =>
      if Str.is_empty s then Ok F64.zero
      else
        let amount_str :=
          Str.strip (Str.replace "BTN" "" (Str.replace "Nu." "" (Str.replace "," "" s))) in
        try_ (F64.of_string amount_str) (Ok F64.zero)
  end.

(** ** The statement extractor *)

Definition exclusion_keywords : list string :=
  ["TOTAL"; "OPENING"; "CLOSING"; "STATEMENT"; "BALANCE AS"].

(** [any('JOURNAL' in str(cell).upper() for cell in row if cell)] *)
Definition is_header (row : trow) : bool :=
  existsb (fun c => truthy c && Str.contains "JOURNAL" (Str.upper (str_cell c))) row.

(** The index of the first header row, [None] standing for [-1]. *)
Fixpoint header_idx_from (idx : nat) (t : table) : option nat :=
  match t with
  | row :: t' => if is_header row then Some idx else header_idx_from (S idx) t'
  | [] => None
  end.

Definition header_idx (t : table) : option nat := header_idx_from 0 t.

(** [str(row[i]).strip() if len(row) > i and row[i] else default] *)
Definition field (row : trow) (i : nat) (default : string) : string :=
  match row !! i with
  | Some c => if truthy c then Str.strip (str_cell c) else default
  | None => default
  end.

(** The body of the [try] of one row; [None] is [continue] or an amount
    that is not positive. *)
Definition parse_row_body (row : trow) : Py (option txn) :=
  post_date ← match row !! 0%nat with
              | Some c => Ok (if truthy c then Str.strip (str_cell c) else "")
              | None => Raise IndexError
              end;
  let particulars := field row 2 "" in
  let journal_number := field row 3 "" in
  let amount_str := field row 6 "0" in
  if Str.is_empty journal_number || Str.eqb journal_number "None"
     || (String.length journal_number <? 3)%nat
  then Ok None
  else
    amount ← parse_amount (Some amount_str);
    if F64.ltb F64.zero amount
    then Ok (Some {| date := post_date; journal_number := journal_number;
                     description := particulars; amount := amount |})
    else Ok None.

(** One iteration of the loop over the rows after the header. *)
Definition parse_row (row : trow) : option txn :=
  if (length row <? 5)%nat then None
  else if existsb (fun kw => Str.contains kw (Str.upper (str_row row))) exclusion_keywords
  then None
  else try_except (parse_row_body row) None.

Definition parse_table (t : table) : list txn :=
  if (length t <? 2)%nat then []
  else match header_idx t with
       | None => []
       | Some idx => omap parse_row (drop (S idx) t)
       end.

Definition txn_keys : list string := ["date"; "journal_number"; "description"; "amount"].

(** The list [transactions] once every table of every page is read. *)
Definition transactions_of (pages : list page) : list txn :=
  concat (map (fun p => concat (map parse_table p)) pages).

(** [parse_bank_pdf]; the document is [None] when it cannot be opened. *)
Definition parse_bank_pdf (pdf : option (list page)) : Py (DataFrame txn) :=
  match pdf with
  | None => Raise (HTTPException 500)
  | Some pages => Ok (DataFrame_of_records txn_keys (transactions_of pages))
  end.

(** ** The constructor *)

Record BankReconciliation := {
  original_df : list Ledger.row;
  data_entry_df : list Ledger.entry;
  bank_df : list txn;
}.

Definition notna (r : Ledger.row) : bool :=
  match Ledger.ChequeDDNo r with Some _ => true | None => false end.

Definition with_key (r : Ledger.row) : Ledger.entry :=
  {| Ledger.src := r;
     Ledger.ChequeDDNo_str := Str.strip (str_cell (Ledger.ChequeDDNo r)) |}.

Definition strip_journal (t : txn) : txn :=
  {| date := date t; journal_number := Str.strip (journal_number t);
     description := description t; amount := amount t |}.

Definition init (data_entry_df : list Ledger.row) (bank_statement : option (list page))
  : Py BankReconciliation :=
  let filtered := List.filter notna data_entry_df in
  let entries := map with_key filtered in
  bank ← parse_bank_pdf bank_statement;
  col ← getitem bank "journal_number";
  Ok {| original_df := data_entry_df;
        data_entry_df := entries;
        bank_df := map strip_journal col |}.

(** ** The matcher *)

(** What a report cell added by [reconcile] holds: a text (the empty text
    for no value), the integer [0], or a float. *)
Inductive pyval :=
| VStr (s : string)
| VInt (n : Z)
| VFloat (x : F64.float).

(** The [Remarks] of a report row: the ledger's own, or the text generated
    for an adjustment, kept as the values its f-string interpolates. *)
Inductive remarks :=
| LedgerRemarks
| AdjustmentFor (journal : string) (bank entry diff : F64.float).

(** A dictionary of [all_entries]: [row.to_dict()] with the keys [reconcile]
    adds or overwrites. *)
Record out_row := {
  entry : Ledger.entry;
  Amount : F64.float;
  Remarks : remarks;
  Status : string;
  Bank_Amount : pyval;
  Difference : pyval;
}.

(** A dictionary of [unregistered_entries]. *)
Module Unreg.
Record row := {
  PaymentDate : string;
  CustomerName : string;
  ChequeDDNo : string;
  Amount : F64.float;
  PaymentMode : string;
  Bank : string;
  Remarks : string;
  Status : string;
  Bank_Amount : F64.float;
}.
End Unreg.

(** The local state of the loop of [reconcile]. *)
Record acc := {
  all_entries : list out_row;
  matched_entries : list out_row;
  adjusted_entries : list out_row;
  unmatched_entries : list out_row;
  bank_matched : gset nat;
}.

Definition acc0 : acc :=
  {| all_entries := []; matched_entries := []; adjusted_entries := [];
     unmatched_entries := []; bank_matched := ∅ |}.

(** [df[df['journal_number'] == journal]], each row with its index label. *)
Definition bank_lookup (bank : list txn) (journal : string) : list (nat * txn) :=
  List.filter (fun it => Str.eqb (journal_number it.2) journal) (imap pair bank).

Definition to_dict (e : Ledger.entry) (st : string) (b d : pyval) : out_row :=
  {| entry := e; Amount := Ledger.Amount (Ledger.src e); Remarks := LedgerRemarks;
     Status := st; Bank_Amount := b; Difference := d |}.

(** One iteration of the loop over [self.data_entry_df]. *)
Definition step (bank : list txn) (a : acc) (row : Ledger.entry) : acc :=
  let journal := Ledger.ChequeDDNo_str row in
  let entry_amount := Ledger.Amount (Ledger.src row) in
  match bank_lookup bank journal with
  | [] =>
      let row_dict := to_dict row "Not Found in Bank" (VStr "") (VStr "") in
      {| all_entries := all_entries a ++ [row_dict];
         matched_entries := matched_entries a;
         adjusted_entries := adjusted_entries a;
         unmatched_entries := unmatched_entries a ++ [row_dict];
         bank_matched := bank_matched a |}
  | (idx, first) :: _ =>
      let bank_amount := amount first in
      let marked := {[ idx ]} ∪ bank_matched a in
      if F64.ltb (F64.abs (F64.sub bank_amount entry_amount)) F64.one then
        let row_dict := to_dict row "Matched" (VFloat bank_amount) (VInt 0) in
        {| all_entries := all_entries a ++ [row_dict];
           matched_entries := matched_entries a ++ [row_dict];
           adjusted_entries := adjusted_entries a;
           unmatched_entries := unmatched_entries a;
           bank_matched := marked |}
      else
        let difference := F64.sub bank_amount entry_amount in
        let row_dict :=
          to_dict row "Amount Mismatch" (VFloat bank_amount) (VFloat difference) in
        let adj_dict :=
          {| entry := entry row_dict;
             Amount := difference;
             Remarks := AdjustmentFor journal bank_amount entry_amount difference;
             Status := "Adjustment Entry";
             Bank_Amount := Bank_Amount row_dict;
             Difference := Difference row_dict |} in
        {| all_entries := all_entries a ++ [row_dict; adj_dict];
           matched_entries := matched_entries a;
           adjusted_entries := adjusted_entries a ++ [row_dict; adj_dict];
           unmatched_entries := unmatched_entries a;
           bank_matched := marked |}
  end.

Definition unregistered_entry (bank_row : txn) : Unreg.row :=
  {| Unreg.PaymentDate := date bank_row;
     Unreg.CustomerName := "UNREGISTERED";
     Unreg.ChequeDDNo := journal_number bank_row;
     Unreg.Amount := amount bank_row;
     Unreg.PaymentMode := "BANK TRANSFER";
     Unreg.Bank := "Bank of Bhutan";
     Unreg.Remarks := description bank_row;
     Unreg.Status := "Not in Data Entry";
     Unreg.Bank_Amount := amount bank_row |}.

(** The result of [reconcile]; [unregistered_idx] keeps, next to each row
    of [unregistered], the index label of the transaction it comes from. *)
Record categories := {
  cat_all_entries : list out_row;
  cat_matched : list out_row;
  cat_adjusted : list out_row;
  cat_unmatched : list out_row;
  cat_unregistered_idx : list (nat * Unreg.row);
}.

Definition cat_unregistered (c : categories) : list Unreg.row :=
  map snd (cat_unregistered_idx c).

(** [self.bank_df[~self.bank_df.index.isin(bank_matched)]] *)
Definition not_matched (bank : list txn) (marked : gset nat) : list (nat * txn) :=
  List.filter (fun it => negb (bool_decide (it.1 ∈ marked))) (imap pair bank).

Definition reconcile_loop (bank : list txn) (entries : list Ledger.entry) : acc :=
  fold_left (step bank) entries acc0.

Definition reconcile (self : BankReconciliation) : categories :=
  let a := reconcile_loop (bank_df self) (data_entry_df self) in
  let unregistered := not_matched (bank_df self) (bank_matched a) in
  {| cat_all_entries := all_entries a;
     cat_matched := matched_entries a;
     cat_adjusted := adjusted_entries a;
     cat_unmatched := unmatched_entries a;
     cat_unregistered_idx :=
       map (fun it => (it.1, unregistered_entry it.2)) unregistered |}.

(** ** Statistics *)

Record stats := {
  total_entries : N;
  matched : N;
  mismatches : N;
  unmatched : N;
  unregistered : N;
  total_bank_transactions : N;
}.

Definition len {A} (l : list A) : N := N.of_nat (length l).

Definition with_status (st : string) (l : list out_row) : list out_row :=
  List.filter (fun r => Str.eqb (Status r) st) l.

(** The counts of the [stats] dictionary of [generate_report]. *)
Definition compute_stats (self : BankReconciliation) (c : categories) : stats :=
  let adjusted_df := cat_adjusted c in
  let mismatches_count :=
    if (0 <? len adjusted_df)%N then len (with_status "Amount Mismatch" adjusted_df)
    else 0%N in
  {| total_entries := len (data_entry_df self);
     matched := len (cat_matched c);
     mismatches := mismatches_count;
     unmatched := len (cat_unmatched c);
     unregistered := len (cat_unregistered c);
     total_bank_transactions := len (bank_df self) |}.

(** The last value of the Summary sheet:
    [f"{(matched/total_entries*100):.1f}%" if total_entries > 0 else '0%']. *)
Definition accuracy (s : stats) : Py string :=
  if (0 <? total_entries s)%N then
    q ← F64.truediv (matched s) (total_entries s);
    Ok (F64.format_1f (F64.mul q (F64.of_Z 100)) +:+ "%")
  else Ok "0%".

(** ** The TOTAL rows of the workbook *)

Inductive sheet_name :=
| AllEntries | MatchedSheet | AdjustedSheet | UnmatchedSheet
| UnregisteredSheet | Summary | BankStatement.

#[global] Instance sheet_name_eq_dec : EqDecision sheet_name.
Proof. solve_decision. Defined.

Definition sheets_with_totals : list sheet_name :=
  [AllEntries; MatchedSheet; AdjustedSheet; UnmatchedSheet; UnregisteredSheet;
   BankStatement].

(** The value of a worksheet cell. *)
Inductive xl :=
| XNone
| XStr (s : string)
| XNum (x : F64.float).

(** A worksheet is the list of its cells, each with its row and column
    (both from 1), the newest first; a later write to a cell hides an
    earlier one. *)
Definition worksheet : Type := list ((nat * nat) * xl).

(** [ws.max_row] and [ws.max_column]: 1 for a sheet without cells. *)
Definition max_row (ws : worksheet) : nat :=
  match ws with
  | [] => 1
  | _ => max_list (map (fun c => c.1.1) ws)
  end.

Definition max_column (ws : worksheet) : nat :=
  match ws with
  | [] => 1
  | _ => max_list (map (fun c => c.1.2) ws)
  end.

Fixpoint find_cell (ws : worksheet) (r c : nat) : option xl :=
  match ws with
  | ((r', c'), v) :: ws' =>
      if ((r' =? r) && (c' =? c))%nat then Some v else find_cell ws' r c
  | [] => None
  end.

(** [ws.cell(row=r, column=c)]: the cell is created, empty, when the sheet
    does not have it; the sheet and the cell's value. *)
Definition get_cell (ws : worksheet) (r c : nat) : worksheet * xl :=
  match find_cell ws r c with
  | Some v => (ws, v)
  | None => (((r, c), XNone) :: ws, XNone)
  end.

(** [ws.cell(row=r, column=c).value = v] *)
Definition set_value (ws : worksheet) (r c : nat) (v : xl) : worksheet :=
  ((r, c), v) :: ws.

(** What [to_excel(..., index=False)] writes for a frame: the column names
    in row 1, the data rows below. *)
Definition row_cells (r : nat) (vals : list xl) : worksheet :=
  imap (fun j v => ((r, S j), v)) vals.

Definition to_excel (header : list string) (data : list (list xl)) : worksheet :=
  row_cells 1 (map XStr header)
  ++ concat (imap (fun i vals => row_cells (i + 2) vals) data).

(** The letters of a column, last letter first into [acc]. *)
Fixpoint column_letters (fuel col_idx : nat) (acc : string) : string :=
  match fuel with
  | O => acc
  | S fuel' =>
      if (col_idx =? 0)%nat then acc
      else
        let q := (col_idx / 26)%nat in
        let r := (col_idx mod 26)%nat in
        let '(q, r) := if (r =? 0)%nat then ((q - 1)%nat, 26%nat) else (q, r) in
        column_letters fuel' q (String (ascii_of_nat (r + 64)) acc)
  end.

(** [openpyxl.utils.get_column_letter] *)
Definition get_column_letter (col_idx : nat) : Py string :=
  if (1 <=? col_idx)%nat && (N.of_nat col_idx <=? 18278)%N
  then Ok (column_letters col_idx col_idx "")
  else Raise ValueError.

(** The search for the [Amount] column in row 1. *)
Fixpoint find_amount_col (cols : list nat) (ws : worksheet) : worksheet * option nat :=
  match cols with
  | col_idx :: cols' =>
      let '(ws, header_value) := get_cell ws 1 col_idx in
      match header_value with
      | XStr s => if Str.eqb s "Amount" then (ws, Some col_idx)
                  else find_amount_col cols' ws
      | _ => find_amount_col cols' ws
      end
  | [] => (ws, None)
  end.

(** The body of the loop over [wb.sheetnames], for one sheet. *)
Definition add_total (name : sheet_name) (ws : worksheet) : Py worksheet :=
  if bool_decide (name = Summary) then Ok ws
  else if bool_decide (name ∈ sheets_with_totals) && (1 <? max_row ws)%nat then
    let total_row := (max_row ws + 1)%nat in
    let '(ws, amount_col_idx) := find_amount_col (seq 1 (max_column ws)) ws in
    match amount_col_idx with
    | Some amount_col_idx =>
        let ws := set_value ws total_row 1 (XStr "TOTAL") in
        letter ← get_column_letter amount_col_idx;
        let formula :=
          "=SUM(" +:+ letter +:+ "2:" +:+ letter
            +:+ Str.of_N (N.of_nat (max_row ws - 1)) +:+ ")" in
        Ok (set_value ws total_row amount_col_idx (XStr formula))
    | None => Ok ws
    end
  else Ok ws.

(** The value read back from a cell. *)
Definition cell_value (ws : worksheet) (r c : nat) : xl :=
  default XNone (find_cell ws r c).

(** ** The metadata log *)

Module Meta.
(** One dictionary of the metadata list. *)
Record entry := {
  filename : string;
  timestamp : string;
  data_entry_file : string;
  bank_statement_file : string;
  stats : stats;
}.
End Meta.

(** The state of [METADATA_FILE]: absent, not valid JSON, or holding a
    list of entries. *)
Inductive metadata_file :=
| Missing
| Corrupted
| Stored (metadata : list Meta.entry).



(** ** The endpoints *)


(** What the endpoints keep on disk: the names of the files of
    [REPORTS_DIR] and the metadata file. *)
Record server := {
  reports_dir : gset string;
  metadata : metadata_file;
}.


Definition view_file (srv : server) (filename : string) : Py string :=
  if bool_decide (filename ∈ reports_dir srv) then Ok filename
  else Raise (HTTPException 404).

(** The statistics [generate_report] returns (the report itself goes to
    [output_path]). *)
Definition generate_report (self : BankReconciliation) : stats :=
  compute_stats self (reconcile self).



(** The rows [analyze_file] counts in one table of a PDF: those after the
    first that hold no exclusion keyword. *)
Definition analyze_table (t : table) : nat :=
  if (1 <? length t)%nat then
    length (List.filter
              (fun row => negb (existsb (fun kw => Str.contains kw (Str.upper (str_row row)))
                                  exclusion_keywords))
              (drop 1 t))
  else 0%nat.

(** [transaction_count] of [analyze_file] for a PDF. *)
Definition analyze_pdf_count (pages : list page) : nat :=
  fold_left (fun n p => fold_left (fun n t => (n + analyze_table t)%nat) p n) pages 0%nat.

(** [f"{x:.2f}"]: two digits after the point, the exact value rounded
    half to even. *)
Definition format_2f (x : F64.float) : string :=
  match x with
  | S754_nan => "nan"
  | S754_infinity s => if s then "-inf" else "inf"
  | S754_zero s => if s then "-0.00" else "0.00"
  | S754_finite s m e =>
      let n :=
        match e with
        | Zneg k =>
            let d := 2 ^ Zpos k in
            let q := (100 * Zpos m) / d in
            let r := (100 * Zpos m) mod d in
            match Z.compare (2 * r) d with
            | Lt => q
            | Gt => q + 1
            | Eq => if Z.even q then q else q + 1
            end
        | _ => 100 * Zpos m * 2 ^ e
        end in
      (if s then "-" else "") +:+ Str.of_N (Z.to_N (n / 100)) +:+ "."
        +:+ Str.of_N (Z.to_N ((n / 10) mod 10)) +:+ Str.of_N (Z.to_N (n mod 10))
  end.

(** [file_size_str] of [analyze_file], from the number of bytes read. *)
Definition file_size_str (file_size : N) : string :=
  let file_size_mb := F64.quotient file_size (1024 * 1024) in
  if F64.ltb (F64.of_Z 1) file_size_mb then format_2f file_size_mb +:+ " MB"
  else format_2f (F64.quotient file_size 1024) +:+ " KB".

(** The dictionaries [analyze_file] returns; [read_ok] tells the status
    line of a file that was read from the one of an error. *)
Inductive analysis :=
| ExcelAnalysis (read_ok : bool) (total_rows : N) (columns : list string)
    (has_cheque_column has_amount_column : bool) (valid_entries : N)
    (file_size : string)
| PdfAnalysis (read_ok : bool) (total_pages tables_found transaction_count : N)
    (file_size : string)
| UnknownFileType.

(** [analyze_file]; [excel] is what [pd.read_excel] makes of the upload
    (its column names and its rows, or an exception) and [pdf] what
    [pdfplumber] does ([None] when it cannot open it). *)
Definition analyze_file (file_size : N) (file_type : string)
    (excel : Py (list string * list Ledger.row)) (pdf : option (list page))
  : analysis :=
  let file_size_str := file_size_str file_size in
  if Str.eqb file_type "excel" then
    match excel with
    | Ok (columns, df) =>
        let has_cheque := existsb (Str.eqb "ChequeDDNo") columns in
        let has_amount := existsb (Str.eqb "Amount") columns in
        let valid_entries :=
          if has_cheque then len (List.filter notna df) else 0%N in
        ExcelAnalysis true (len df) columns has_cheque has_amount valid_entries
          file_size_str
    | Raise _ => ExcelAnalysis false 0 [] false false 0 file_size_str
    end
  else if Str.eqb file_type "pdf" then
    match pdf with
    | Some pages =>
        let transaction_count := analyze_pdf_count pages in
        PdfAnalysis true (len pages) (if (0 <? transaction_count)%nat then 1 else 0)
          (N.of_nat transaction_count) file_size_str
    | None => PdfAnalysis false 0 0 0 file_size_str
    end
  else UnknownFileType.

(** ** Definitions used by the properties *)

(** What one ledger entry contributes, whatever was accumulated before. *)
Definition emit (bank : list txn) (e : Ledger.entry) : acc := step bank acc0 e.

Definition acc_app (a b : acc) : acc :=
  {| all_entries := all_entries a ++ all_entries b;
     matched_entries := matched_entries a ++ matched_entries b;
     adjusted_entries := adjusted_entries a ++ adjusted_entries b;
     unmatched_entries := unmatched_entries a ++ unmatched_entries b;
     bank_matched := bank_matched a ∪ bank_matched b |}.

(** The status [reconcile] gives a ledger entry. *)
Definition classify (bank : list txn) (e : Ledger.entry) : string :=
  match bank_lookup bank (Ledger.ChequeDDNo_str e) with
  | [] => "Not Found in Bank"
  | (_, first) :: _ =>
      if F64.ltb (F64.abs (F64.sub (amount first) (Ledger.Amount (Ledger.src e)))) F64.one
      then "Matched" else "Amount Mismatch"
  end.

Definition is_adjustment (r : out_row) : bool := Str.eqb (Status r) "Adjustment Entry".

(** The rows of a list that stand for ledger entries themselves. *)
Definition originals (l : list out_row) : list out_row :=
  List.filter (fun r => negb (is_adjustment r)) l.

(** [i] is the first index of [bank] whose reference key is [key]. *)
Definition first_with_key (bank : list txn) (key : string) (i : nat) : Prop :=
  (exists t, bank !! i = Some t /\ journal_number t = key) /\
  forall j t', (j < i)%nat -> bank !! j = Some t' -> journal_number t' <> key.

(** A statement transaction is consumed when it is the first one with the
    key of some ledger entry. *)
Definition consumed (self : BankReconciliation) (i : nat) : Prop :=
  exists e, In e (data_entry_df self)
            /\ first_with_key (bank_df self) (Ledger.ChequeDDNo_str e) i.

Definition key_filter (key : string) (l : list (nat * txn)) : list (nat * txn) :=
  List.filter (fun it => Str.eqb (journal_number it.2) key) l.

Definition clean_amount (s : string) : string :=
  Str.strip (Str.replace "BTN" "" (Str.replace "Nu." "" (Str.replace "," "" s))).

(** The text does not begin with whitespace. *)
Definition head_ok (s : string) : bool :=
  match s with
  | String c _ => negb (Str.isspace c)
  | EmptyString => true
  end.

(** An ASCII letter or a space. *)
Definition plain (c : ascii) : bool :=
  let n := Str.code c in
  ((65 <=? n) && (n <=? 90) || (97 <=? n) && (n <=? 122) || (n =? 32))%nat.

Fixpoint all_plain (s : string) : bool :=
  match s with
  | String c s' => plain c && all_plain s'
  | EmptyString => true
  end.

(** The position (from 0) of the first [x] in [l]. *)
Fixpoint index_of (x : string) (l : list string) : option nat :=
  match l with
  | h :: l' => if Str.eqb h x then Some 0%nat else S <$> index_of x l'
  | [] => None
  end.

(** The mantissa [m * 2^k], for [k >= 0]. *)
Definition shifted (m : positive) (k : Z) : positive :=
  match k with
  | Zpos d => Pos.iter xO m d
  | _ => m
  end.

(** The integer a sign and a mantissa stand for. *)
Definition signed (s : bool) (m : positive) : Z := if s then Zneg m else Zpos m.

(** The mantissa [m] has the exponent [e] of its canonical form. *)
Definition canonical (m : positive) (e : Z) : Prop :=
  fexp F64.prec F64.emax (Zpos (digits2_pos m) + e) = e.

(** The rational a finite double is. *)
Definition to_Q (x : F64.float) : option Q :=
  match x with
  | S754_zero _ => Some 0%Q
  | S754_finite s m e => Some (inject_Z (signed s m) * 2 ^ e)%Q
  | _ => None
  end.

(** [b - a] is finite and computed without rounding. *)
Definition exact_sub (b a : F64.float) : Prop :=
  match to_Q (F64.sub b a), to_Q b, to_Q a with
  | Some d, Some vb, Some va => (d == vb - va)%Q
  | _, _, _ => False
  end.

(** The text is made of decimal digits. *)
Fixpoint all_digits (s : string) : bool :=
  match s with
  | String c s' => Str.isdigit c && all_digits s'
  | EmptyString => true
  end.

(** The value of a decimal number read after [acc]. *)
Fixpoint uint_value (d : Decimal.uint) (acc : Z) : Z :=
  match d with
  | Decimal.Nil => acc
  | Decimal.D0 d => uint_value d (10 * acc)
  | Decimal.D1 d => uint_value d (10 * acc + 1)
  | Decimal.D2 d => uint_value d (10 * acc + 2)
  | Decimal.D3 d => uint_value d (10 * acc + 3)
  | Decimal.D4 d => uint_value d (10 * acc + 4)
  | Decimal.D5 d => uint_value d (10 * acc + 5)
  | Decimal.D6 d => uint_value d (10 * acc + 6)
  | Decimal.D7 d => uint_value d (10 * acc + 7)
  | Decimal.D8 d => uint_value d (10 * acc + 8)
  | Decimal.D9 d => uint_value d (10 * acc + 9)
  end.

(** [Str.digits_value] continued from [acc]. *)
Definition digits_from (acc : Z) (s : string) : Z :=
  fold_left (fun acc c => 10 * acc + Z.of_nat (Str.code c - 48))
    (list_ascii_of_string s) acc.


(** The reconciler [self] with another filtered ledger. *)
Definition with_entries (self : BankReconciliation) (es : list Ledger.entry)
  : BankReconciliation :=
  {| original_df := original_df self; data_entry_df := es; bank_df := bank_df self |}.

(** The set [bank_matched] at the end of the loop of [reconcile]. *)
Definition marked (self : BankReconciliation) : gset nat :=
  bank_matched (reconcile_loop (bank_df self) (data_entry_df self)).

(** ** Sample data *)

(** A statement of one transaction under the key J100, and a ledger of
    one entry with that key. *)
Definition one_txn (a : F64.float) : txn :=
  {| date := "01/01/2024"; journal_number := "J100"; description := "DEPOSIT";
     amount := a |}.

Definition one_entry (key : string) (a : F64.float) : Ledger.entry :=
  with_key {| Ledger.ChequeDDNo := Some key; Ledger.Amount := a; Ledger.extra := [] |}.

Definition one_pair (bank_amount entry_amount : F64.float) : BankReconciliation :=
  {| original_df := [Ledger.src (one_entry "J100" entry_amount)];
     data_entry_df := [one_entry "J100" entry_amount];
     bank_df := [one_txn bank_amount] |}.

Definition f100_5 : F64.float := binary_normalize F64.prec F64.emax 201 (-1) false.

Definition f1e16 : F64.float := F64.of_Z (10 ^ 16).

Definition f1_5 : F64.float := binary_normalize F64.prec F64.emax 3 (-1) false.

Definition two_txns : BankReconciliation :=
  {| original_df := [Ledger.src (one_entry "J100" (F64.of_Z 100))];
     data_entry_df := [one_entry "J100" (F64.of_Z 100)];
     bank_df := [one_txn (F64.of_Z 100);
                 {| date := "02/01/2024"; journal_number := "J300";
                    description := "TRANSFER"; amount := F64.of_Z 75 |}] |}.

(** A statement of one table: the header and one transaction of 100.0
    under the key J100. *)
Definition sample_pdf : option (list page) :=
  Some [[[[Some "Post Date"; Some "Value Date"; Some "Particulars";
           Some "Journal No"; Some "Cheque"; Some "Debit"; Some "Credit"];
          [Some "01/01/2024"; Some "01/01/2024"; Some "DEPOSIT"; Some "J100";
           None; None; Some "Nu. 100.00"]]]].

Definition ledger_row (key : option string) (a : F64.float) : Ledger.row :=
  {| Ledger.ChequeDDNo := key; Ledger.Amount := a; Ledger.extra := [] |}.

(** A ledger of three rows: a key of the statement, a null key and a key of
    two spaces. *)
Definition sample_ledger : list Ledger.row :=
  [ledger_row (Some "J100") (F64.of_Z 100); ledger_row None (F64.of_Z 50);
   ledger_row (Some "  ") (F64.of_Z 70)].

Definition sample_self : BankReconciliation :=
  {| original_df := sample_ledger;
     data_entry_df := [with_key (ledger_row (Some "J100") (F64.of_Z 100));
                       with_key (ledger_row (Some "  ") (F64.of_Z 70))];
     bank_df := [{| date := "01/01/2024"; journal_number := "J100";
                    description := "DEPOSIT"; amount := F64.of_Z 100 |}] |}.

(** A statement that lists the transaction J100 twice, against a ledger
    with one entry J100. *)
Definition twice_paid : BankReconciliation :=
  {| original_df := [Ledger.src (one_entry "J100" (F64.of_Z 100))];
     data_entry_df := [one_entry "J100" (F64.of_Z 100)];
     bank_df := [one_txn (F64.of_Z 100); one_txn (F64.of_Z 100)] |}.

(** A ledger entry J200 against a statement that only has J100. *)
Definition strangers : BankReconciliation :=
  {| original_df := [Ledger.src (one_entry "J200" (F64.of_Z 100))];
     data_entry_df := [one_entry "J200" (F64.of_Z 100)];
     bank_df := [one_txn (F64.of_Z 100)] |}.

(** A row of six cells, one short of the amount column. *)
Definition six_cells : trow :=
  [Some "01/01/2024"; None; Some "DEPOSIT"; Some "J100"; None; Some "100.00"].

(** A table whose header is its second row. *)
Definition late_header : table :=
  [[Some "Bank of Bhutan"; None; None; None; None; None; None];
   [Some "Post Date"; Some "Value Date"; Some "Particulars"; Some "Journal No";
    Some "Cheque"; Some "Debit"; Some "Credit"];
   [Some "01/01/2024"; Some "01/01/2024"; Some "DEPOSIT"; Some "J100";
    None; None; Some "Nu. 100.00"]].

(** A server that has no report yet. *)
Definition fresh_server : server := {| reports_dir := ∅; metadata := Missing |}.

(** Three matched entries out of three. *)
Definition all_matched_stats : stats :=
  {| total_entries := 3; matched := 3; mismatches := 0; unmatched := 0;
     unregistered := 0; total_bank_transactions := 3 |}.

(** The keyword test of [analyze_file] on a row. *)
Definition no_keyword (row : trow) : bool :=
  negb (existsb (fun kw => Str.contains kw (Str.upper (str_row row))) exclusion_keywords).

Definition priced_sheet : worksheet :=
  to_excel ["Date"; "Journal #"; "Description"; "Amount"]
    [[XStr "01/01/2024"; XStr "J100"; XStr "DEPOSIT"; XNum (F64.of_Z 100)]].

Definition priced_sheet_totalled : worksheet :=
  match add_total BankStatement priced_sheet with
  | Ok ws => ws
  | Raise _ => []
  end.

(** * Properties *)

(** ** Floating-point comparison *)

Section Compare.

Lemma compare_cont_swap (m1 m2 : positive) :
  Pos.compare_cont Eq m2 m1 = CompOpp (Pos.compare_cont Eq m1 m2).
Proof. apply (Pos.compare_antisym m1 m2). Qed.

Lemma SFcompare_swap (x y : spec_float) :
  SFcompare y x = CompOpp <$> SFcompare x y.
Proof.
  destruct x as [sx|sx| |sx mx ex], y as [sy|sy| |sy my ey]; simpl;
    try reflexivity;
    try (destruct sx; reflexivity); try (destruct sy; reflexivity);
    try (destruct sx, sy; reflexivity).
  destruct sx, sy; simpl; try reflexivity;
    rewrite (Z.compare_antisym ex ey); destruct (Z.compare ex ey); simpl;
    try reflexivity; rewrite compare_cont_swap;
    destruct (Pos.compare_cont Eq mx my); reflexivity.
Qed.

(** [x >= y] excludes [x < y]. *)
Lemma leb_not_ltb (x y : F64.float) :
  F64.leb y x = true -> F64.ltb x y = false.
Proof.
  unfold F64.leb, F64.ltb, SFleb, SFltb. rewrite (SFcompare_swap y x).
  destruct (SFcompare y x) as [[]|]; simpl; congruence.
Qed.

End Compare.

(** ** The loop of [reconcile], entry by entry *)

Lemma acc_eq (a b : acc) :
  all_entries a = all_entries b ->
  matched_entries a = matched_entries b ->
  adjusted_entries a = adjusted_entries b ->
  unmatched_entries a = unmatched_entries b ->
  bank_matched a = bank_matched b ->
  a = b.
Proof. destruct a, b; simpl; intros; subst; reflexivity. Qed.

Lemma step_emit (bank : list txn) (a : acc) (e : Ledger.entry) :
  step bank a e = acc_app a (emit bank e).
Proof.
  unfold emit, step.
  destruct (bank_lookup bank (Ledger.ChequeDDNo_str e)) as [|[idx first] rest].
  - apply acc_eq; simpl; rewrite ?app_nil_r, ?union_empty_r_L; reflexivity.
  - destruct (F64.ltb _ _); apply acc_eq; simpl;
      rewrite ?app_nil_r, ?union_empty_r_L; try reflexivity;
      apply union_comm_L.
Qed.

Lemma loop_from (bank : list txn) (es : list Ledger.entry) (a : acc) :
  fold_left (step bank) es a = acc_app a (fold_left (step bank) es acc0).
Proof.
  revert a. induction es as [|e es IH]; intros a; simpl.
  - apply acc_eq; simpl; rewrite ?app_nil_r, ?union_empty_r_L; reflexivity.
  - rewrite (IH (step bank a e)), (IH (step bank acc0 e)), (step_emit bank a e).
    apply acc_eq; simpl; rewrite ?app_assoc, ?union_assoc_L; reflexivity.
Qed.

Lemma loop_cons (bank : list txn) (e : Ledger.entry) (es : list Ledger.entry) :
  reconcile_loop bank (e :: es) = acc_app (emit bank e) (reconcile_loop bank es).
Proof. unfold reconcile_loop. simpl. rewrite loop_from. reflexivity. Qed.

(** What [emit] produces, case by case. *)
Lemma emit_spec (bank : list txn) (e : Ledger.entry) :
  let a := emit bank e in
  map entry (originals (all_entries a)) = [e] /\
  map Status (originals (all_entries a)) = [classify bank e] /\
  matched_entries a = with_status "Matched" (all_entries a) /\
  with_status "Amount Mismatch" (adjusted_entries a)
    = with_status "Amount Mismatch" (all_entries a) /\
  unmatched_entries a = with_status "Not Found in Bank" (all_entries a) /\
  (length (matched_entries a)
   + length (with_status "Amount Mismatch" (adjusted_entries a))
   + length (unmatched_entries a) = 1)%nat.
Proof.
  unfold emit, step, classify.
  destruct (bank_lookup bank (Ledger.ChequeDDNo_str e)) as [|[idx first] rest].
  - cbn. repeat split; reflexivity.
  - destruct (F64.ltb _ _); cbn; repeat split; reflexivity.
Qed.

Lemma originals_app (l1 l2 : list out_row) :
  originals (l1 ++ l2) = originals l1 ++ originals l2.
Proof. apply List.filter_app. Qed.

Lemma with_status_app (st : string) (l1 l2 : list out_row) :
  with_status st (l1 ++ l2) = with_status st l1 ++ with_status st l2.
Proof. apply List.filter_app. Qed.

(** The invariant of the whole loop. *)
Lemma loop_spec (bank : list txn) (es : list Ledger.entry) :
  let a := reconcile_loop bank es in
  map entry (originals (all_entries a)) = es /\
  map Status (originals (all_entries a)) = map (classify bank) es /\
  matched_entries a = with_status "Matched" (all_entries a) /\
  with_status "Amount Mismatch" (adjusted_entries a)
    = with_status "Amount Mismatch" (all_entries a) /\
  unmatched_entries a = with_status "Not Found in Bank" (all_entries a) /\
  (length (matched_entries a)
   + length (with_status "Amount Mismatch" (adjusted_entries a))
   + length (unmatched_entries a) = length es)%nat.
Proof.
  induction es as [|e es IH].
  - cbn. repeat split; reflexivity.
  - rewrite loop_cons. cbn zeta in *.
    destruct (emit_spec bank e) as (E1 & E2 & E3 & E4 & E5 & E6).
    destruct IH as (I1 & I2 & I3 & I4 & I5 & I6).
    unfold acc_app; simpl.
    rewrite !originals_app, !with_status_app, !map_app, !length_app.
    rewrite E1, E2, I1, I2, <- E3, <- I3, E4, I4, <- E5, <- I5.
    repeat split; try reflexivity.
    rewrite <- E4, <- I4. lia.
Qed.

(** The rows of an entry form a segment of every list of the result. *)
Lemma emit_segment (bank : list txn) (es : list Ledger.entry) (e : Ledger.entry) :
  In e es ->
  let a := reconcile_loop bank es in
  (exists l1 l2, all_entries a = l1 ++ all_entries (emit bank e) ++ l2) /\
  (exists l1 l2, matched_entries a = l1 ++ matched_entries (emit bank e) ++ l2) /\
  (exists l1 l2, adjusted_entries a = l1 ++ adjusted_entries (emit bank e) ++ l2) /\
  (exists l1 l2, unmatched_entries a = l1 ++ unmatched_entries (emit bank e) ++ l2) /\
  bank_matched (emit bank e) ⊆ bank_matched a.
Proof.
  induction es as [|e' es IH]; intros Hin.
  - inversion Hin.
  - rewrite loop_cons. destruct Hin as [->|Hin].
    + simpl. do 4 (split; [exists []; eexists; reflexivity|]).
      apply union_subseteq_l.
    + destruct (IH Hin) as ((a1 & a2 & Ha) & (m1 & m2 & Hm) & (j1 & j2 & Hj)
                             & (u1 & u2 & Hu) & Hb).
      simpl. rewrite Ha, Hm, Hj, Hu. repeat split.
      * exists (all_entries (emit bank e') ++ a1), a2. rewrite <- app_assoc. reflexivity.
      * exists (matched_entries (emit bank e') ++ m1), m2. rewrite <- app_assoc. reflexivity.
      * exists (adjusted_entries (emit bank e') ++ j1), j2. rewrite <- app_assoc. reflexivity.
      * exists (unmatched_entries (emit bank e') ++ u1), u2. rewrite <- app_assoc. reflexivity.
      * etrans; [exact Hb | apply union_subseteq_r].
Qed.

Lemma in_segment {A} (x : A) (l l1 l2 m : list A) :
  l = l1 ++ m ++ l2 -> In x m -> In x l.
Proof. intros -> H. apply in_or_app. right. apply in_or_app. left. exact H. Qed.

(** Conversely every row of the result is the row of some entry. *)
Lemma loop_origin (bank : list txn) (es : list Ledger.entry) :
  let a := reconcile_loop bank es in
  (forall r, In r (all_entries a) -> exists e, In e es /\ In r (all_entries (emit bank e))) /\
  (forall r, In r (matched_entries a) -> exists e, In e es /\ In r (matched_entries (emit bank e))) /\
  (forall r, In r (adjusted_entries a) -> exists e, In e es /\ In r (adjusted_entries (emit bank e))) /\
  (forall r, In r (unmatched_entries a) -> exists e, In e es /\ In r (unmatched_entries (emit bank e))) /\
  (forall i, i ∈ bank_matched a -> exists e, In e es /\ i ∈ bank_matched (emit bank e)).
Proof.
  induction es as [|e es IH].
  - cbn. repeat split; intros r Hr; try (destruct Hr; fail).
    exfalso. revert Hr. apply not_elem_of_empty.
  - rewrite loop_cons. cbn zeta in *. destruct IH as (IA & IM & IJ & IU & IB).
    simpl. repeat split; intros r Hr;
      (apply in_app_or in Hr || apply elem_of_union in Hr);
      destruct Hr as [Hr|Hr];
      try (exists e; split; [left; reflexivity | exact Hr]).
    + destruct (IA r Hr) as (x & Hx & Hrx). exists x. split; [right|]; assumption.
    + destruct (IM r Hr) as (x & Hx & Hrx). exists x. split; [right|]; assumption.
    + destruct (IJ r Hr) as (x & Hx & Hrx). exists x. split; [right|]; assumption.
    + destruct (IU r Hr) as (x & Hx & Hrx). exists x. split; [right|]; assumption.
    + destruct (IB r Hr) as (x & Hx & Hrx). exists x. split; [right|]; assumption.
Qed.

Lemma classify_cases (bank : list txn) (e : Ledger.entry) :
  classify bank e = "Matched" \/ classify bank e = "Amount Mismatch"
  \/ classify bank e = "Not Found in Bank".
Proof.
  unfold classify. destruct (bank_lookup _ _) as [|[i t] l]; [auto|].
  destruct (F64.ltb _ _); auto.
Qed.

(** ** Partition completeness *)

(** C1. Every filtered ledger entry has exactly one row of its own in
    [all_entries] (in the ledger's order), whose status is one of Matched,
    Amount Mismatch and Not Found in Bank; [matched], the Amount Mismatch
    rows of [adjusted] and [unmatched] are the rows of [all_entries] with
    these statuses, and their sizes add up to the number of filtered
    entries, in the result as in the statistics. *)
Theorem partition_completeness (self : BankReconciliation) :
  let c := reconcile self in
  let s := compute_stats self c in
  map entry (originals (cat_all_entries c)) = data_entry_df self /\
  Forall (fun r => Status r = "Matched" \/ Status r = "Amount Mismatch"
                   \/ Status r = "Not Found in Bank")
         (originals (cat_all_entries c)) /\
  cat_matched c = with_status "Matched" (cat_all_entries c) /\
  with_status "Amount Mismatch" (cat_adjusted c)
    = with_status "Amount Mismatch" (cat_all_entries c) /\
  cat_unmatched c = with_status "Not Found in Bank" (cat_all_entries c) /\
  (length (cat_matched c)
   + length (with_status "Amount Mismatch" (cat_adjusted c))
   + length (cat_unmatched c) = length (data_entry_df self))%nat /\
  (matched s + mismatches s + unmatched s = total_entries s)%N.
Proof.
  intros c s.
  destruct (loop_spec (bank_df self) (data_entry_df self)) as (H1 & H2 & H3 & H4 & H5 & H6).
  cbn zeta in *. subst s c. unfold reconcile, compute_stats; simpl.
  repeat split; try assumption.
  - apply List.Forall_forall. intros r Hr.
    assert (Hs : In (Status r) (map (classify (bank_df self)) (data_entry_df self))).
    { rewrite <- H2. apply in_map. exact Hr. }
    apply in_map_iff in Hs as (e & <- & _). apply classify_cases.
  - unfold len.
    destruct (adjusted_entries (reconcile_loop (bank_df self) (data_entry_df self))) eqn:Hadj.
    + simpl in *. lia.
    + replace (0 <? N.of_nat (length (o :: l)))%N with true
        by (symmetry; apply N.ltb_lt; simpl; lia).
      lia.
Qed.

(** ** The tolerance boundary *)

Lemma emit_matched (bank : list txn) (e : Ledger.entry) idx first rest :
  bank_lookup bank (Ledger.ChequeDDNo_str e) = (idx, first) :: rest ->
  F64.ltb (F64.abs (F64.sub (amount first) (Ledger.Amount (Ledger.src e)))) F64.one = true ->
  let row_dict := to_dict e "Matched" (VFloat (amount first)) (VInt 0) in
  all_entries (emit bank e) = [row_dict] /\ matched_entries (emit bank e) = [row_dict]
  /\ adjusted_entries (emit bank e) = [] /\ unmatched_entries (emit bank e) = []
  /\ classify bank e = "Matched".
Proof.
  intros Hl Hlt. unfold emit, step, classify. rewrite Hl, Hlt. cbn. auto.
Qed.

Lemma emit_mismatch (bank : list txn) (e : Ledger.entry) idx first rest :
  bank_lookup bank (Ledger.ChequeDDNo_str e) = (idx, first) :: rest ->
  F64.ltb (F64.abs (F64.sub (amount first) (Ledger.Amount (Ledger.src e)))) F64.one = false ->
  let bank_amount := amount first in
  let entry_amount := Ledger.Amount (Ledger.src e) in
  let difference := F64.sub bank_amount entry_amount in
  let row_dict := to_dict e "Amount Mismatch" (VFloat bank_amount) (VFloat difference) in
  let adj_dict :=
    {| entry := e; Amount := difference;
       Remarks := AdjustmentFor (Ledger.ChequeDDNo_str e) bank_amount entry_amount difference;
       Status := "Adjustment Entry";
       Bank_Amount := VFloat bank_amount; Difference := VFloat difference |} in
  all_entries (emit bank e) = [row_dict; adj_dict] /\ matched_entries (emit bank e) = []
  /\ adjusted_entries (emit bank e) = [row_dict; adj_dict]
  /\ unmatched_entries (emit bank e) = []
  /\ classify bank e = "Amount Mismatch".
Proof.
  intros Hl Hlt. unfold emit, step, classify. rewrite Hl, Hlt. cbn. auto.
Qed.

(** C2. When a ledger entry has a statement transaction with its key, the
    first one decides: with [|bank_amount - entry_amount| < 1.0] the entry
    is Matched, its row (bank amount, difference 0) in [matched] and
    [all_entries]; with [|bank_amount - entry_amount| >= 1.0], 1.0
    included, it is an Amount Mismatch, its row in [adjusted] and
    [all_entries]. *)
Theorem tolerance_boundary (self : BankReconciliation) (e : Ledger.entry)
    (idx : nat) (first : txn) (rest : list (nat * txn)) :
  In e (data_entry_df self) ->
  bank_lookup (bank_df self) (Ledger.ChequeDDNo_str e) = (idx, first) :: rest ->
  let c := reconcile self in
  let bank_amount := amount first in
  let entry_amount := Ledger.Amount (Ledger.src e) in
  let d := F64.abs (F64.sub bank_amount entry_amount) in
  (F64.ltb d F64.one = true ->
   let row_dict := to_dict e "Matched" (VFloat bank_amount) (VInt 0) in
   classify (bank_df self) e = "Matched"
   /\ In row_dict (cat_matched c) /\ In row_dict (cat_all_entries c)) /\
  (F64.leb F64.one d = true ->
   let row_dict :=
     to_dict e "Amount Mismatch" (VFloat bank_amount)
       (VFloat (F64.sub bank_amount entry_amount)) in
   classify (bank_df self) e = "Amount Mismatch"
   /\ In row_dict (cat_adjusted c) /\ In row_dict (cat_all_entries c)).
Proof.
  intros Hin Hl c bank_amount entry_amount d.
  destruct (emit_segment (bank_df self) (data_entry_df self) e Hin)
    as ((a1 & a2 & Ha) & (m1 & m2 & Hm) & (j1 & j2 & Hj) & _).
  split.
  - intros Hlt row_dict.
    destruct (emit_matched _ _ _ _ _ Hl Hlt) as (Ea & Em & _ & _ & Ec).
    split; [exact Ec|]. split.
    + apply (in_segment _ _ _ _ _ Hm). rewrite Em. left. reflexivity.
    + apply (in_segment _ _ _ _ _ Ha). rewrite Ea. left. reflexivity.
  - intros Hge row_dict. apply leb_not_ltb in Hge.
    destruct (emit_mismatch _ _ _ _ _ Hl Hge) as (Ea & _ & Ej & _ & Ec).
    split; [exact Ec|]. split.
    + apply (in_segment _ _ _ _ _ Hj). rewrite Ej. left. reflexivity.
    + apply (in_segment _ _ _ _ _ Ha). rewrite Ea. left. reflexivity.
Qed.

Lemma tolerance_boundary_witness :
  classify [one_txn (F64.of_Z 101)] (one_entry "J100" (F64.of_Z 100)) = "Amount Mismatch" /\
  classify [one_txn (F64.of_Z 101)] (one_entry "J100" f100_5) = "Matched".
Proof.
  split.
  - refine (proj1 (proj2 (tolerance_boundary (one_pair (F64.of_Z 101) (F64.of_Z 100))
             (one_entry "J100" (F64.of_Z 100)) 0%nat (one_txn (F64.of_Z 101)) [] _ _) _)).
    + left. reflexivity.
    + vm_compute. reflexivity.
    + vm_compute. reflexivity.
  - refine (proj1 (proj1 (tolerance_boundary (one_pair (F64.of_Z 101) f100_5)
             (one_entry "J100" f100_5) 0%nat (one_txn (F64.of_Z 101)) [] _ _) _)).
    + left. reflexivity.
    + vm_compute. reflexivity.
    + vm_compute. reflexivity.
Defined.

(** ** Differences computed without rounding *)

Lemma digits_iter (m k : positive) :
  digits2_pos (Pos.iter xO m k) = (digits2_pos m + k)%positive.
Proof.
  induction k as [|k IH] using Pos.peano_ind.
  - simpl. rewrite Pos.add_1_r. reflexivity.
  - rewrite Pos.iter_succ. simpl. rewrite IH, Pos.add_succ_r. reflexivity.
Qed.

Lemma digits_shifted (m : positive) (k : Z) :
  0 <= k -> Zpos (digits2_pos (shifted m k)) = Zpos (digits2_pos m) + k.
Proof.
  intros Hk. destruct k as [|d|d]; simpl; [lia | | lia].
  rewrite digits_iter. lia.
Qed.

Lemma iter_value (m k : positive) :
  Zpos (Pos.iter xO m k) = Zpos m * 2 ^ Zpos k.
Proof.
  induction k as [|k IH] using Pos.peano_ind.
  - simpl. lia.
  - rewrite Pos.iter_succ, Pos2Z.inj_succ, Z.pow_succ_r by lia.
    rewrite Pos2Z.inj_xO, IH. lia.
Qed.

Lemma shifted_value (m : positive) (k : Z) :
  0 <= k -> Zpos (shifted m k) = Zpos m * 2 ^ k.
Proof.
  intros Hk. destruct k as [|d|d]; simpl shifted; [simpl; lia | | lia].
  apply iter_value.
Qed.

Lemma shr_exact (k m : positive) :
  SpecFloat.iter_pos shr_1 k {| shr_m := Zpos (Pos.iter xO m k); shr_r := false; shr_s := false |}
  = {| shr_m := Zpos m; shr_r := false; shr_s := false |}.
Proof.
  revert m. induction k as [k IH|k IH|]; intros m; simpl.
  - rewrite IH, IH. reflexivity.
  - rewrite IH, IH. reflexivity.
  - reflexivity.
Qed.

Lemma shl_align_fst (m : positive) (e ez : Z) :
  ez <= e -> fst (shl_align m e ez) = shifted m (e - ez).
Proof.
  intros H. unfold shl_align, shifted.
  destruct (ez - e) as [|d|d] eqn:E1; destruct (e - ez) as [|d'|d'] eqn:E2;
    simpl; try lia; try reflexivity.
  f_equal. lia.
Qed.

Lemma bounded_canonical (m : positive) (e : Z) :
  bounded F64.prec F64.emax m e = true -> canonical m e /\ e <= F64.emax - F64.prec.
Proof.
  unfold bounded, canonical_mantissa, canonical. intros H.
  apply andb_true_iff in H as [H1 H2].
  split; [apply Z.eqb_eq, H1 | apply Z.leb_le, H2].
Qed.

Lemma shr_fexp_exact (m : positive) (e k : Z) :
  canonical m e -> 0 <= k ->
  shr_fexp F64.prec F64.emax (Zpos (shifted m k)) (e - k) loc_Exact
  = ({| shr_m := Zpos m; shr_r := false; shr_s := false |}, e).
Proof.
  intros Hc Hk. unfold shr_fexp. simpl Zdigits2.
  rewrite (digits_shifted m k Hk).
  replace (Zpos (digits2_pos m) + k + (e - k)) with (Zpos (digits2_pos m) + e) by lia.
  rewrite Hc. replace (e - (e - k)) with k by lia.
  unfold shr, shr_record_of_loc. destruct k as [|d|d]; [| |lia].
  - simpl. f_equal. lia.
  - simpl shifted. rewrite shr_exact. f_equal. lia.
Qed.

Lemma round_aux_canonical (s : bool) (m : positive) (e k : Z) :
  bounded F64.prec F64.emax m e = true -> 0 <= k ->
  binary_round_aux F64.prec F64.emax s (Zpos (shifted m k)) (e - k) loc_Exact
  = S754_finite s m e.
Proof.
  intros Hb Hk. destruct (bounded_canonical m e Hb) as [Hc He].
  unfold binary_round_aux. rewrite (shr_fexp_exact m e k Hc Hk).
  simpl shr_m. simpl loc_of_shr_record. simpl round_nearest_even.
  pose proof (shr_fexp_exact m e 0 Hc (Z.le_refl 0)) as H0.
  simpl shifted in H0. rewrite Z.sub_0_r in H0. rewrite H0.
  simpl shr_m. apply Z.leb_le in He. rewrite He. reflexivity.
Qed.

Lemma binary_round_shift_r (s : bool) (m : positive) (e k : Z) :
  bounded F64.prec F64.emax m e = true -> 0 <= k ->
  binary_round F64.prec F64.emax s (shifted m k) (e - k) = S754_finite s m e.
Proof.
  intros Hb Hk. destruct (bounded_canonical m e Hb) as [Hc He].
  unfold binary_round. rewrite (digits_shifted m k Hk).
  replace (Zpos (digits2_pos m) + k + (e - k)) with (Zpos (digits2_pos m) + e) by lia.
  rewrite Hc. unfold shl_align.
  destruct (e - (e - k)) as [|d|d] eqn:E; try lia;
    apply (round_aux_canonical s m e k Hb Hk).
Qed.

Lemma binary_round_shift_l (s : bool) (m M : positive) (e k : Z) :
  bounded F64.prec F64.emax m e = true -> 0 < k -> m = shifted M k ->
  binary_round F64.prec F64.emax s M (e + k) = S754_finite s m e.
Proof.
  intros Hb Hk Hm. destruct (bounded_canonical m e Hb) as [Hc He].
  unfold binary_round.
  assert (Hd : Zpos (digits2_pos M) + (e + k) = Zpos (digits2_pos m) + e).
  { rewrite Hm, (digits_shifted M k) by lia. lia. }
  rewrite Hd, Hc. unfold shl_align.
  destruct (e - (e + k)) as [|d|d] eqn:E; try lia.
  assert (Hk' : k = Zpos d) by lia. subst k. simpl in Hm. rewrite <- Hm.
  pose proof (round_aux_canonical s m e 0 Hb (Z.le_refl 0)) as H0.
  simpl shifted in H0. rewrite Z.sub_0_r in H0. exact H0.
Qed.

Lemma normalize_exact (s : bool) (m : positive) (e S ez : Z) :
  bounded F64.prec F64.emax m e = true ->
  (ez <= e /\ S = signed s m * 2 ^ (e - ez)) \/ (e <= ez /\ S * 2 ^ (ez - e) = signed s m) ->
  binary_normalize F64.prec F64.emax S ez false = S754_finite s m e.
Proof.
  intros Hb [[Hle HS]|[Hle HS]].
  - assert (Hk : 0 <= e - ez) by lia.
    pose proof (shifted_value m (e - ez) Hk) as Hv.
    pose proof (binary_round_shift_r s m e (e - ez) Hb Hk) as Hr.
    replace (e - (e - ez)) with ez in Hr by lia.
    unfold signed in HS. destruct s.
    + assert (HS' : S = Zneg (shifted m (e - ez))) by lia.
      clear HS. subst S. exact Hr.
    + assert (HS' : S = Zpos (shifted m (e - ez))) by lia.
      clear HS. subst S. exact Hr.
  - destruct (Z.eq_dec ez e) as [->|Hne].
    + rewrite Z.sub_diag, Z.mul_1_r in HS. subst S.
      pose proof (binary_round_shift_r s m e 0 Hb (Z.le_refl 0)) as Hr.
      simpl shifted in Hr. rewrite Z.sub_0_r in Hr. destruct s; exact Hr.
    + assert (Hk : 0 < ez - e) by lia.
      assert (Hp : 0 < 2 ^ (ez - e)) by (apply Z.pow_pos_nonneg; lia).
      unfold signed in HS. destruct s, S as [|M|M]; try lia.
      * simpl. replace ez with (e + (ez - e)) at 1 by lia.
        apply binary_round_shift_l; [exact Hb | exact Hk |].
        apply Pos2Z.inj. rewrite shifted_value by lia. lia.
      * simpl. replace ez with (e + (ez - e)) at 1 by lia.
        apply binary_round_shift_l; [exact Hb | exact Hk |].
        apply Pos2Z.inj. rewrite shifted_value by lia. lia.
Qed.

Lemma aligned (s : bool) (m : positive) (e ez : Z) :
  ez <= e ->
  cond_Zopp s (Zpos (fst (shl_align m e ez))) = signed s m * 2 ^ (e - ez).
Proof.
  intros H. rewrite (shl_align_fst m e ez H), shifted_value by lia.
  unfold signed. destruct s; simpl cond_Zopp; lia.
Qed.

Lemma finite_Q (z e k : Z) :
  k <= e -> (inject_Z z * 2 ^ e == inject_Z (z * 2 ^ (e - k)) * 2 ^ k)%Q.
Proof.
  intros H. rewrite inject_Z_mult, Zpower_Qpower by lia.
  replace e with ((e - k) + k) at 1 by lia.
  rewrite Qpower_plus by discriminate.
  change (inject_Z 2) with 2%Q. ring.
Qed.

Lemma exact_at (k : Z) (za zb zd ea eb ed : Z) :
  k <= ea -> k <= eb -> k <= ed ->
  (inject_Z zd * 2 ^ ed == inject_Z zb * 2 ^ eb - inject_Z za * 2 ^ ea)%Q ->
  zd * 2 ^ (ed - k) = zb * 2 ^ (eb - k) - za * 2 ^ (ea - k).
Proof.
  intros Ha Hb Hd H.
  rewrite (finite_Q zd ed k Hd), (finite_Q zb eb k Hb), (finite_Q za ea k Ha) in H.
  apply inject_Z_injective.
  replace (zb * 2 ^ (eb - k) - za * 2 ^ (ea - k))
    with (zb * 2 ^ (eb - k) + - (za * 2 ^ (ea - k))) by lia.
  rewrite inject_Z_plus, inject_Z_opp.
  apply (Qmult_inj_r _ _ (2 ^ k)%Q); [apply Qpower_not_0; discriminate|].
  rewrite H. ring.
Qed.

Lemma add_sub_exact_finite (sa sb sd : bool) (ma mb md : positive) (ea eb ed : Z) :
  bounded F64.prec F64.emax mb eb = true ->
  (inject_Z (signed sd md) * 2 ^ ed
   == inject_Z (signed sb mb) * 2 ^ eb - inject_Z (signed sa ma) * 2 ^ ea)%Q ->
  F64.add (S754_finite sa ma ea) (S754_finite sd md ed) = S754_finite sb mb eb.
Proof.
  intros Hb HQ. unfold F64.add, SFadd.
  set (ez := Z.min ea ed).
  rewrite (aligned sa ma ea ez), (aligned sd md ed ez) by (subst ez; lia).
  apply normalize_exact; [exact Hb|].
  destruct (Z_le_gt_dec ez eb) as [Hle|Hgt].
  - left. split; [exact Hle|].
    pose proof (exact_at ez _ _ _ ea eb ed
                  ltac:(subst ez; lia) Hle ltac:(subst ez; lia) HQ) as H.
    lia.
  - right. split; [lia|].
    pose proof (exact_at eb _ _ _ ea eb ed
                  ltac:(subst ez; lia) (Z.le_refl eb) ltac:(subst ez; lia) HQ) as H.
    rewrite Z.sub_diag, Z.mul_1_r in H.
    replace (ea - eb) with ((ea - ez) + (ez - eb)) in H by lia.
    replace (ed - eb) with ((ed - ez) + (ez - eb)) in H by lia.
    rewrite !Z.pow_add_r in H by (subst ez; lia).
    lia.
Qed.

Lemma compare_refl_finite (s : bool) (m : positive) (e : Z) :
  F64.eqb (S754_finite s m e) (S754_finite s m e) = true.
Proof.
  unfold F64.eqb, SFeqb. simpl. rewrite Z.compare_refl.
  change (Pos.compare_cont Eq m m) with (Pos.compare m m).
  rewrite Pos.compare_refl. destruct s; reflexivity.
Qed.

(** When [b - a] is computed without rounding and is not zero, adding it
    back to [a] gives [b]. *)
Lemma add_sub_exact (a b : F64.float) :
  valid_binary F64.prec F64.emax b = true ->
  exact_sub b a ->
  F64.ltb (F64.abs (F64.sub b a)) F64.one = false ->
  F64.eqb (F64.add a (F64.sub b a)) b = true.
Proof.
  intros Hv He Hm. unfold exact_sub in He.
  destruct (F64.sub b a) as [sd|sd| |sd md ed] eqn:Hd; simpl in He; try contradiction.
  { vm_compute in Hm. discriminate Hm. }
  destruct b as [sb|sb| |sb mb eb]; simpl in He; try contradiction;
    destruct a as [sa|sa| |sa ma ea]; simpl in He; try contradiction.
  - destruct sb, sa; discriminate Hd.
  - simpl in Hd. injection Hd as <- <- <-.
    unfold F64.add, SFadd.
    rewrite Z.min_id, !(aligned _ _ ea ea) by lia.
    rewrite Z.sub_diag, !Z.mul_1_r.
    replace (signed sa ma + signed (negb sa) ma) with 0
      by (unfold signed; destruct sa; simpl; lia).
    destruct sb; reflexivity.
  - simpl in Hd. injection Hd as <- <- <-. simpl. apply compare_refl_finite.
  - rewrite (add_sub_exact_finite sa sb sd ma mb md ea eb ed Hv He).
    apply compare_refl_finite.
Qed.

(** ** Adjustment entries *)

(** C3, as the code has it. For a ledger entry classified Amount Mismatch,
    [reconcile] puts, right after the entry's own row in [all_entries] and
    in [adjusted], an adjustment row: a copy of that row whose [Amount] is
    the double [bank_amount - entry_amount] and whose [Status] is
    Adjustment Entry.  When that subtraction is finite and without
    rounding, [entry_amount + adjustment_amount == bank_amount]. *)
Theorem adjustment_entry (self : BankReconciliation) (e : Ledger.entry)
    (idx : nat) (first : txn) (rest : list (nat * txn)) :
  In e (data_entry_df self) ->
  bank_lookup (bank_df self) (Ledger.ChequeDDNo_str e) = (idx, first) :: rest ->
  classify (bank_df self) e = "Amount Mismatch" ->
  let c := reconcile self in
  let bank_amount := amount first in
  let entry_amount := Ledger.Amount (Ledger.src e) in
  let row_dict :=
    to_dict e "Amount Mismatch" (VFloat bank_amount)
      (VFloat (F64.sub bank_amount entry_amount)) in
  exists adj_dict,
    (exists l1 l2, cat_all_entries c = l1 ++ [row_dict; adj_dict] ++ l2) /\
    (exists l1 l2, cat_adjusted c = l1 ++ [row_dict; adj_dict] ++ l2) /\
    entry adj_dict = e /\
    Amount adj_dict = F64.sub bank_amount entry_amount /\
    Status adj_dict = "Adjustment Entry" /\
    Bank_Amount adj_dict = VFloat bank_amount /\
    (valid_binary F64.prec F64.emax bank_amount = true ->
     exact_sub bank_amount entry_amount ->
     F64.eqb (F64.add entry_amount (Amount adj_dict)) bank_amount = true).
Proof.
  intros Hin Hl Hc c bank_amount entry_amount row_dict.
  assert (Hlt : F64.ltb (F64.abs (F64.sub (amount first) (Ledger.Amount (Ledger.src e))))
                  F64.one = false).
  { unfold classify in Hc. rewrite Hl in Hc.
    destruct (F64.ltb _ _); [discriminate Hc | reflexivity]. }
  destruct (emit_segment (bank_df self) (data_entry_df self) e Hin)
    as (Ha & _ & Hj & _).
  destruct (emit_mismatch _ _ _ _ _ Hl Hlt) as (Ea & _ & Ej & _).
  rewrite Ea in Ha. rewrite Ej in Hj.
  eexists. split; [exact Ha|]. split; [exact Hj|]. simpl.
  repeat split. intros Hv He. apply add_sub_exact; assumption.
Qed.

Lemma adjustment_entry_witness :
  exists adj_dict,
    Status adj_dict = "Adjustment Entry" /\
    Amount adj_dict = F64.sub (F64.of_Z 250) (F64.of_Z 100) /\
    F64.eqb (F64.add (F64.of_Z 100) (Amount adj_dict)) (F64.of_Z 250) = true.
Proof.
  destruct (adjustment_entry (one_pair (F64.of_Z 250) (F64.of_Z 100))
              (one_entry "J100" (F64.of_Z 100)) 0%nat (one_txn (F64.of_Z 250)) [])
    as (adj_dict & _ & _ & _ & Hamount & Hstatus & _ & Hexact).
  - left. reflexivity.
  - vm_compute. reflexivity.
  - vm_compute. reflexivity.
  - exists adj_dict. split; [exact Hstatus|]. split; [exact Hamount|].
    apply Hexact.
    + vm_compute. reflexivity.
    + vm_compute. reflexivity.
Defined.

(** C3 as stated fails on doubles: a ledger entry of 1e16 against a bank
    amount of 1.5 is an Amount Mismatch whose adjustment is
    -9999999999999998.0, and 1e16 plus that adjustment is 2.0, not 1.5. *)
Lemma adjustment_sum_not_exact :
  classify (bank_df (one_pair f1_5 f1e16)) (one_entry "J100" f1e16) = "Amount Mismatch" /\
  exists orig adj,
    cat_adjusted (reconcile (one_pair f1_5 f1e16)) = [orig; adj] /\
    Status orig = "Amount Mismatch" /\ Amount orig = f1e16 /\
    Bank_Amount orig = VFloat f1_5 /\
    Status adj = "Adjustment Entry" /\
    Amount adj = F64.sub f1_5 f1e16 /\
    Amount adj = SFopp (F64.of_Z 9999999999999998) /\
    F64.add (Amount orig) (Amount adj) = F64.of_Z 2 /\
    F64.eqb (F64.add (Amount orig) (Amount adj)) f1_5 = false.
Proof.
  split; [vm_compute; reflexivity|].
  eexists _, _. split; [vm_compute; reflexivity|].
  repeat split; vm_compute; reflexivity.
Qed.

(** ** Unregistered transactions *)

Lemma imap_shift {A B} (f : nat -> A -> B) (k : nat) (l : list A) :
  imap (fun j => f (k + S j)%nat) l = imap (fun j => f (S k + j)%nat) l.
Proof. apply imap_ext. intros i x _. f_equal. lia. Qed.

Lemma key_filter_head (key : string) (bank : list txn) (k i : nat) (t : txn)
    (rest : list (nat * txn)) :
  key_filter key (imap (fun j x => ((k + j)%nat, x)) bank) = (i, t) :: rest ->
  exists j, i = (k + j)%nat /\ bank !! j = Some t /\ journal_number t = key /\
            forall j' t', (j' < j)%nat -> bank !! j' = Some t' -> journal_number t' <> key.
Proof.
  revert k. induction bank as [|x bank IH]; intros k H.
  - discriminate H.
  - unfold key_filter in H. simpl in H.
    destruct (Str.eqb (journal_number x) key) eqn:Hx.
    + injection H as Hi Ht _. exists 0%nat. subst. repeat split.
      * apply String.eqb_eq. exact Hx.
      * intros j' t' Hj. lia.
    + change (imap ((fun j x0 => ((k + j)%nat, x0)) ∘ S) bank)
        with (imap (fun j x0 => ((k + S j)%nat, x0)) bank) in H.
      rewrite (imap_shift (fun n x0 => (n, x0)) k bank) in H.
      destruct (IH (S k) H) as (j & -> & Hj & Hk & Hmin).
      exists (S j). repeat split; [lia | exact Hj | exact Hk |].
      intros [|j'] t' Hlt Hl.
      * simpl in Hl. injection Hl as <-. apply String.eqb_neq. exact Hx.
      * simpl in Hl. apply (Hmin j' t'); [lia | exact Hl].
Qed.

Lemma key_filter_first (key : string) (bank : list txn) (k j : nat) (t : txn) :
  bank !! j = Some t -> journal_number t = key ->
  (forall j' t', (j' < j)%nat -> bank !! j' = Some t' -> journal_number t' <> key) ->
  exists rest, key_filter key (imap (fun j x => ((k + j)%nat, x)) bank)
               = ((k + j)%nat, t) :: rest.
Proof.
  revert k j. induction bank as [|x bank IH]; intros k j Hj Hk Hmin.
  - discriminate Hj.
  - unfold key_filter. simpl. destruct j as [|j].
    + simpl in Hj. injection Hj as ->.
      apply String.eqb_eq in Hk. unfold Str.eqb. rewrite Hk.
      eexists. rewrite Nat.add_0_r. reflexivity.
    + assert (Hx : Str.eqb (journal_number x) key = false).
      { apply String.eqb_neq. apply (Hmin 0%nat x); [lia | reflexivity]. }
      rewrite Hx.
      change (imap ((fun j x0 => ((k + j)%nat, x0)) ∘ S) bank)
        with (imap (fun j x0 => ((k + S j)%nat, x0)) bank).
      rewrite (imap_shift (fun n x0 => (n, x0)) k bank).
      destruct (IH (S k) j Hj Hk) as (rest & Hr).
      { intros j' t' Hlt Hl. apply (Hmin (S j') t'); [lia | exact Hl]. }
      exists rest. unfold key_filter in Hr. rewrite Hr. f_equal. f_equal. lia.
Qed.

Lemma bank_lookup_first (bank : list txn) (key : string) (i : nat) :
  first_with_key bank key i <->
  exists t rest, bank_lookup bank key = (i, t) :: rest.
Proof.
  unfold bank_lookup. split.
  - intros ((t & Ht & Hk) & Hmin).
    destruct (key_filter_first key bank 0 i t Ht Hk Hmin) as (rest & Hr).
    exists t, rest. exact Hr.
  - intros (t & rest & H).
    destruct (key_filter_head key bank 0 i t rest H) as (j & -> & Hj & Hk & Hmin).
    split; [exists t; auto | exact Hmin].
Qed.

Lemma emit_marks (bank : list txn) (e : Ledger.entry) (i : nat) :
  i ∈ bank_matched (emit bank e) <-> first_with_key bank (Ledger.ChequeDDNo_str e) i.
Proof.
  rewrite bank_lookup_first. unfold emit, step.
  destruct (bank_lookup bank (Ledger.ChequeDDNo_str e)) as [|[idx first] rest].
  - simpl. split; [intros H; exfalso; revert H; apply not_elem_of_empty|].
    intros (t & r & H). discriminate H.
  - assert (Hm : forall a : acc, bank_matched a = {[idx]} ∪ (∅ : gset nat) ->
                 (i ∈ bank_matched a <-> i = idx)).
    { intros a ->. rewrite union_empty_r_L. apply elem_of_singleton. }
    destruct (F64.ltb _ _); (rewrite Hm by reflexivity); split;
      try (intros ->; eauto); intros (t & r & H); injection H as ->; reflexivity.
Qed.

(** The indices marked by the loop are those of the consumed
    transactions. *)
Lemma marked_consumed (self : BankReconciliation) (i : nat) :
  i ∈ bank_matched (reconcile_loop (bank_df self) (data_entry_df self))
  <-> consumed self i.
Proof.
  unfold consumed. split.
  - intros H.
    destruct (loop_origin (bank_df self) (data_entry_df self)) as (_ & _ & _ & _ & Hb).
    destruct (Hb i H) as (e & He & Hi). exists e. split; [exact He|].
    apply emit_marks. exact Hi.
  - intros (e & He & Hf).
    destruct (emit_segment (bank_df self) (data_entry_df self) e He) as (_ & _ & _ & _ & Hb).
    apply Hb. apply emit_marks. exact Hf.
Qed.

Lemma in_imap_pair {A} (l : list A) (i : nat) (x : A) :
  In (i, x) (imap pair l) <-> l !! i = Some x.
Proof.
  rewrite <- list_elem_of_In, elem_of_lookup_imap. split.
  - intros (j & y & Heq & Hl). injection Heq as -> ->. exact Hl.
  - intros H. exists i, x. auto.
Qed.

Lemma unregistered_rows (self : BankReconciliation) (i : nat) (r : Unreg.row) :
  In (i, r) (cat_unregistered_idx (reconcile self)) <->
  exists t, bank_df self !! i = Some t /\ r = unregistered_entry t /\ ~ consumed self i.
Proof.
  unfold reconcile, not_matched; simpl. rewrite in_map_iff. split.
  - intros ([j t] & Heq & Hin). simpl in Heq. injection Heq as -> <-.
    apply filter_In in Hin as [Hin Hm]. simpl in Hm.
    apply in_imap_pair in Hin. exists t. repeat split; [exact Hin|].
    intros Hc. apply marked_consumed in Hc.
    apply negb_true_iff, bool_decide_eq_false in Hm. contradiction.
  - intros (t & Ht & -> & Hc). exists (i, t). split; [reflexivity|].
    apply filter_In. split; [apply in_imap_pair; exact Ht|].
    simpl. apply negb_true_iff, bool_decide_eq_false.
    intros Hm. apply Hc, marked_consumed, Hm.
Qed.

(** C4. A statement transaction (the one at index [i]) is in
    [unregistered] exactly when no ledger entry consumed it, a transaction
    being consumed when it is the first with the key of some entry; and
    every record of [unregistered] is built from its transaction with the
    customer name UNREGISTERED, the payment mode BANK TRANSFER, the bank
    name Bank of Bhutan, and the transaction's amount as [Bank_Amount]. *)
Theorem unregistered_exclusivity (self : BankReconciliation) (i : nat) (t : txn) :
  bank_df self !! i = Some t ->
  let c := reconcile self in
  (In (i, unregistered_entry t) (cat_unregistered_idx c) <-> ~ consumed self i) /\
  (forall r, In (i, r) (cat_unregistered_idx c) ->
     r = unregistered_entry t /\
     Unreg.CustomerName r = "UNREGISTERED" /\
     Unreg.PaymentMode r = "BANK TRANSFER" /\
     Unreg.Bank r = "Bank of Bhutan" /\
     Unreg.ChequeDDNo r = journal_number t /\
     Unreg.Amount r = amount t /\
     Unreg.Bank_Amount r = amount t) /\
  (forall j r, In (j, r) (cat_unregistered_idx c) ->
     exists t', bank_df self !! j = Some t' /\ r = unregistered_entry t').
Proof.
  intros Ht c. split; [|split].
  - subst c. rewrite unregistered_rows. split.
    + intros (t' & _ & _ & Hc). exact Hc.
    + intros Hc. exists t. auto.
  - intros r Hr. apply unregistered_rows in Hr as (t' & Ht' & -> & _).
    rewrite Ht in Ht'. injection Ht' as <-. simpl. repeat split.
  - intros j r Hr. apply unregistered_rows in Hr as (t' & Ht' & -> & _).
    exists t'. auto.
Qed.

Lemma unregistered_exclusivity_witness : ~ consumed two_txns 1.
Proof.
  refine (proj1 (proj1 (unregistered_exclusivity two_txns 1
            {| date := "02/01/2024"; journal_number := "J300";
               description := "TRANSFER"; amount := F64.of_Z 75 |} _)) _).
  - reflexivity.
  - vm_compute. left. reflexivity.
Defined.

(** ** The amount parser *)

Lemma parse_amount_ok (x : option string) : exists v, parse_amount x = Ok v.
Proof.
  destruct x as [s|]; simpl; [|eauto].
  destruct (Str.is_empty s); [eauto|].
  destruct (F64.of_string _); simpl; eauto.
Qed.

(** C7. [parse_amount] returns a float on every input, never an
    exception: 0.0 for a missing or empty input, and otherwise, once
    commas, [Nu.], [BTN] and surrounding whitespace are removed, the value
    [float] reads, or 0.0 when [float] fails; so 1234.5 for "Nu. 1,234.50"
    and 0.0 for "garbage". *)
Theorem parse_amount_never_raises (x : option string) :
  (exists v, parse_amount x = Ok v) /\
  parse_amount x
    = Ok match x with
         | None => F64.zero
         | Some s =>
             if Str.is_empty s then F64.zero
             else try_except (F64.of_string (clean_amount s)) F64.zero
         end /\
  parse_amount None = Ok F64.zero /\
  parse_amount (Some "") = Ok F64.zero /\
  parse_amount (Some "Nu. 1,234.50")
    = Ok (binary_normalize F64.prec F64.emax 2469 (-1) false) /\
  F64.of_string "garbage" = Raise ValueError /\
  parse_amount (Some "garbage") = Ok F64.zero.
Proof.
  split; [apply parse_amount_ok|]. split.
  - destruct x as [s|]; simpl; [|reflexivity].
    destruct (Str.is_empty s); [reflexivity|].
    unfold clean_amount. destruct (F64.of_string _); reflexivity.
  - repeat split; vm_compute; reflexivity.
Qed.

(** ** The statement extractor *)

#[local] Arguments parse_amount : simpl never.
#[local] Arguments field : simpl never.

Lemma field_0 (row : trow) (c : cell) :
  row !! 0%nat = Some c ->
  (if truthy c then Str.strip (str_cell c) else "") = field row 0 "".
Proof. intros H. unfold field. rewrite H. reflexivity. Qed.

Lemma no_keyword_iff (text : string) :
  existsb (fun kw => Str.contains kw text) exclusion_keywords = false <->
  forall kw, In kw exclusion_keywords -> Str.contains kw text = false.
Proof.
  split.
  - intros H kw Hin. destruct (Str.contains kw text) eqn:Hc; [|reflexivity].
    assert (existsb (fun kw => Str.contains kw text) exclusion_keywords = true)
      by (apply existsb_exists; exists kw; auto).
    congruence.
  - intros H. destruct (existsb _ _) eqn:Hex; [|reflexivity].
    apply existsb_exists in Hex as (kw & Hin & Hc). rewrite (H kw Hin) in Hc.
    discriminate Hc.
Qed.

(** C6. A row after the header yields a transaction exactly when it has
    at least 5 cells, [str(row)] in upper case contains none of the
    exclusion keywords, the trimmed text of column 3 is not empty, is not
    "None" and has at least 3 characters, and the amount parsed from
    column 6 is strictly positive; the transaction is then made of columns
    0, 3, 2 and that amount.  Every other row yields nothing. *)
Theorem parse_row_spec (row : trow) (t : txn) :
  parse_row row = Some t <->
  (5 <= length row)%nat /\
  (forall kw, In kw exclusion_keywords ->
     Str.contains kw (Str.upper (str_row row)) = false) /\
  field row 3 "" <> "" /\
  field row 3 "" <> "None" /\
  (3 <= String.length (field row 3 ""))%nat /\
  exists a, parse_amount (Some (field row 6 "0")) = Ok a /\
            F64.ltb F64.zero a = true /\
            t = {| date := field row 0 ""; journal_number := field row 3 "";
                   description := field row 2 ""; amount := a |}.
Proof.
  unfold parse_row.
  destruct (Nat.ltb_spec (length row) 5) as [Hlen|Hlen].
  { split; [discriminate | intros (H & _); lia]. }
  destruct (existsb _ exclusion_keywords) eqn:Hkw.
  { split; [discriminate|]. intros (_ & H & _).
    apply (proj2 (no_keyword_iff (Str.upper (str_row row)))) in H. congruence. }
  pose proof (proj1 (no_keyword_iff (Str.upper (str_row row))) Hkw) as Hno.
  clear Hkw.
  unfold parse_row_body.
  destruct (row !! 0%nat) as [c0|] eqn:H0.
  2:{ apply lookup_ge_None in H0. lia. }
  simpl. rewrite (field_0 row c0 H0).
  destruct (parse_amount_ok (Some (field row 6 "0"))) as (a & Ha).
  destruct (Str.is_empty (field row 3 "")) eqn:He; simpl.
  { split; [discriminate|]. intros (_ & _ & H & _).
    destruct (field row 3 ""); [congruence | discriminate He]. }
  destruct (Str.eqb (field row 3 "") "None") eqn:Hn; simpl.
  { split; [discriminate|]. intros (_ & _ & _ & H & _).
    apply String.eqb_eq in Hn. congruence. }
  destruct (Nat.ltb_spec (String.length (field row 3 "")) 3) as [Hl|Hl]; simpl.
  { split; [discriminate|]. intros (_ & _ & _ & _ & H & _). lia. }
  rewrite Ha. simpl.
  destruct (F64.ltb F64.zero a) eqn:Hpos; simpl.
  - split.
    + intros H. injection H as <-. repeat split; try assumption.
      * intros E. rewrite E in He. discriminate He.
      * apply String.eqb_neq. exact Hn.
      * exists a. auto.
    + intros (_ & _ & _ & _ & _ & a' & Ha' & _ & ->).
      injection Ha' as <-. reflexivity.
  - split; [discriminate|].
    intros (_ & _ & _ & _ & _ & a' & Ha' & Hp & _).
    injection Ha' as <-. congruence.
Qed.

(** *** Keywords inside a cell *)

Lemma append_cons (c : ascii) (a b : string) : String c a +:+ b = String c (a +:+ b).
Proof. reflexivity. Qed.

Lemma append_nil (a : string) : "" +:+ a = a.
Proof. reflexivity. Qed.

Lemma startswith_app (sub q : string) : Str.startswith sub (sub +:+ q) = true.
Proof.
  induction sub as [|c sub IH]; [reflexivity|].
  rewrite append_cons. simpl. rewrite Ascii.eqb_refl. exact IH.
Qed.

Lemma startswith_split (sub s : string) :
  Str.startswith sub s = true -> exists q, s = sub +:+ q.
Proof.
  revert s. induction sub as [|c sub IH]; intros s H; simpl in *.
  - exists s. reflexivity.
  - destruct s as [|d s]; [discriminate|].
    apply andb_true_iff in H as [Hc Hs]. apply Ascii.eqb_eq in Hc as ->.
    destruct (IH s Hs) as (q & ->). exists q. reflexivity.
Qed.

Lemma contains_cases (sub s : string) :
  Str.contains sub s
  = Str.startswith sub s
    || match s with String _ s' => Str.contains sub s' | EmptyString => false end.
Proof. destruct s; reflexivity. Qed.

Lemma contains_app (sub p q : string) : Str.contains sub (p +:+ sub +:+ q) = true.
Proof.
  induction p as [|c p IH].
  - change ("" +:+ sub +:+ q) with (sub +:+ q).
    rewrite contains_cases, startswith_app. reflexivity.
  - change (String c p +:+ sub +:+ q) with (String c (p +:+ sub +:+ q)).
    rewrite contains_cases, IH. apply orb_true_r.
Qed.

Lemma contains_split (sub s : string) :
  Str.contains sub s = true -> exists p q, s = p +:+ sub +:+ q.
Proof.
  induction s as [|c s IH]; rewrite contains_cases; intros H.
  - rewrite orb_false_r in H. apply startswith_split in H as (q & ->).
    exists "", q. reflexivity.
  - apply orb_true_iff in H as [H|H].
    + apply startswith_split in H as (q & ->). exists "", q. reflexivity.
    + destruct (IH H) as (p & q & ->). exists (String c p), q. reflexivity.
Qed.

Lemma append_assoc (a b c : string) : (a +:+ b) +:+ c = a +:+ (b +:+ c).
Proof.
  induction a as [|x a IH]; [reflexivity|].
  rewrite !append_cons, IH. reflexivity.
Qed.

Lemma upper_app (a b : string) : Str.upper (a +:+ b) = Str.upper a +:+ Str.upper b.
Proof.
  induction a as [|c a IH]; [reflexivity|].
  rewrite append_cons. simpl. rewrite IH. reflexivity.
Qed.

Lemma upper_split (s a b : string) :
  Str.upper s = a +:+ b ->
  exists s1 s2, s = s1 +:+ s2 /\ Str.upper s1 = a /\ Str.upper s2 = b.
Proof.
  revert s. induction a as [|c a IH]; intros s H.
  - exists "", s. auto.
  - destruct s as [|d s]; [discriminate H|].
    rewrite append_cons in H. simpl in H. injection H as Hc Hs.
    destruct (IH s Hs) as (s1 & s2 & -> & H1 & H2).
    exists (String d s1), s2. rewrite append_cons. simpl. rewrite Hc, H1. auto.
Qed.

Lemma upper_plain (c : ascii) : plain (Str.upper_char c) = true -> plain c = true.
Proof.
  destruct c as [[] [] [] [] [] [] [] []]; intros H;
    solve [reflexivity | discriminate H].
Qed.

Lemma all_plain_upper (s : string) : all_plain (Str.upper s) = true -> all_plain s = true.
Proof.
  induction s as [|c s IH]; simpl; [reflexivity|]. intros H.
  apply andb_true_iff in H as [Hc Hs]. rewrite (upper_plain c Hc), (IH Hs). reflexivity.
Qed.

Lemma repr_char_plain (q c : ascii) :
  q = "'"%char \/ q = Str.dquote -> plain c = true -> Str.repr_char q c = String c "".
Proof.
  intros [->| ->] H; destruct c as [[] [] [] [] [] [] [] []];
    solve [reflexivity | discriminate H].
Qed.

Lemma repr_body_plain (q : ascii) (s : string) :
  q = "'"%char \/ q = Str.dquote -> all_plain s = true -> Str.repr_body q s = s.
Proof.
  intros Hq. induction s as [|c s IH]; simpl; [reflexivity|]. intros H.
  apply andb_true_iff in H as [Hc Hs].
  rewrite (repr_char_plain q c Hq Hc), (IH Hs). reflexivity.
Qed.

Lemma repr_body_app (q : ascii) (a b : string) :
  Str.repr_body q (a +:+ b) = Str.repr_body q a +:+ Str.repr_body q b.
Proof.
  induction a as [|c a IH]; [reflexivity|].
  rewrite append_cons. simpl. rewrite IH, append_assoc. reflexivity.
Qed.

(** A word of letters and spaces found in a text, whatever the case, is
    found in its [repr] too. *)
Lemma contains_repr (kw s : string) :
  all_plain kw = true ->
  Str.contains kw (Str.upper s) = true ->
  Str.contains kw (Str.upper (Str.repr s)) = true.
Proof.
  intros Hkw H. apply contains_split in H as (p & q & H).
  apply upper_split in H as (s1 & s' & -> & <- & H).
  apply upper_split in H as (m & s2 & -> & Hm & <-).
  unfold Str.repr.
  set (qc := if Str.has_char "'" _ && negb (Str.has_char Str.dquote _)
             then Str.dquote else "'"%char).
  assert (Hq : qc = "'"%char \/ qc = Str.dquote).
  { subst qc. destruct (_ && _); auto. }
  rewrite !repr_body_app, (repr_body_plain qc m Hq)
    by (apply all_plain_upper; rewrite Hm; exact Hkw).
  change (String qc ((Str.repr_body qc s1 +:+ m +:+ Str.repr_body qc s2) +:+ String qc ""))
    with (String qc "" +:+ ((Str.repr_body qc s1 +:+ m +:+ Str.repr_body qc s2)
                            +:+ String qc "")).
  rewrite !upper_app, Hm, !append_assoc, <- (append_assoc (Str.upper (String qc ""))).
  apply contains_app.
Qed.

Lemma contains_inside (sub a b c : string) :
  Str.contains sub b = true -> Str.contains sub (a +:+ b +:+ c) = true.
Proof.
  intros H. apply contains_split in H as (p & q & ->).
  rewrite !append_assoc, <- (append_assoc a p). apply contains_app.
Qed.

Lemma join_in (sep x : string) (l : list string) :
  In x l -> exists p q, Str.join sep l = p +:+ x +:+ q.
Proof.
  induction l as [|y l IH]; intros H; [destruct H|].
  destruct H as [->|H].
  - destruct l as [|z l].
    + exists "", "". simpl. rewrite append_nil.
      clear. induction x as [|c x IHx]; [reflexivity|].
      rewrite append_cons, <- IHx. reflexivity.
    + exists "", (sep +:+ Str.join sep (z :: l)). reflexivity.
  - destruct (IH H) as (p & q & Hj). destruct l as [|z l]; [destruct H|].
    exists (y +:+ sep +:+ p), q.
    change (Str.join sep (y :: z :: l)) with (y +:+ sep +:+ Str.join sep (z :: l)).
    rewrite Hj, !append_assoc. reflexivity.
Qed.

(** A row with a cell whose text holds an exclusion keyword, whatever the
    case, yields no transaction. *)
Lemma keyword_in_cell (row : trow) (s kw : string) :
  In (Some s) row -> In kw exclusion_keywords ->
  Str.contains kw (Str.upper s) = true ->
  parse_row row = None.
Proof.
  intros Hin Hkw Hc. unfold parse_row.
  destruct (length row <? 5)%nat; [reflexivity|].
  assert (Hex : existsb (fun kw => Str.contains kw (Str.upper (str_row row)))
                  exclusion_keywords = true); [|rewrite Hex; reflexivity].
  apply existsb_exists. exists kw. split; [exact Hkw|].
  assert (Hplain : all_plain kw = true).
  { unfold exclusion_keywords in Hkw. simpl in Hkw.
    destruct Hkw as [<-|[<-|[<-|[<-|[<-|[]]]]]]; reflexivity. }
  destruct (join_in ", " (repr_cell (Some s)) (map repr_cell row)) as (p & q & Hj).
  { apply in_map. exact Hin. }
  assert (Hs : str_row row
               = ("[" +:+ p) +:+ repr_cell (Some s) +:+ (q +:+ "]")).
  { unfold str_row. rewrite Hj, !append_assoc. reflexivity. }
  rewrite Hs, !upper_app. apply contains_inside. apply contains_repr; assumption.
Qed.

(** What the extractor guarantees of every transaction. *)
Lemma parse_row_key (row : trow) (t : txn) :
  parse_row row = Some t ->
  (exists x, journal_number t = Str.strip x) /\
  (3 <= String.length (journal_number t))%nat /\
  F64.ltb F64.zero (amount t) = true.
Proof.
  unfold parse_row. destruct (length row <? 5)%nat; [discriminate|].
  destruct (existsb _ exclusion_keywords); [discriminate|].
  unfold parse_row_body. destruct (row !! 0%nat) as [c0|]; [|discriminate].
  simpl. destruct (parse_amount_ok (Some (field row 6 "0"))) as (a & Ha).
  destruct (Str.is_empty (field row 3 "")) eqn:He; simpl; [discriminate|].
  destruct (Str.eqb (field row 3 "") "None"); simpl; [discriminate|].
  destruct (Nat.ltb_spec (String.length (field row 3 "")) 3) as [Hl|Hl]; simpl;
    [discriminate|].
  rewrite Ha. simpl. destruct (F64.ltb F64.zero a) eqn:Hpos; simpl; [|discriminate].
  intros H. injection H as <-. simpl. repeat split; try assumption.
  unfold field in *. destruct (row !! 3%nat) as [c|]; [|discriminate He].
  destruct (truthy c); [|discriminate He]. eauto.
Qed.

Lemma transactions_of_rows (pages : list page) (t : txn) :
  In t (transactions_of pages) -> exists row, parse_row row = Some t.
Proof.
  unfold transactions_of. intros H.
  apply in_concat in H as (l & Hl & Ht).
  apply in_map_iff in Hl as (p & <- & _).
  apply in_concat in Ht as (l & Hl & Ht).
  apply in_map_iff in Hl as (tb & <- & _).
  unfold parse_table in Ht.
  destruct (length tb <? 2)%nat; [destruct Ht|].
  destruct (header_idx tb) as [idx|]; [|destruct Ht].
  apply list_elem_of_In, list_elem_of_omap in Ht as (row & _ & Hrow).
  eauto.
Qed.

(** ** Whitespace trimming *)

Section Strip.

Lemma lstrip_head_ok (s : string) : head_ok (Str.lstrip s) = true.
Proof.
  induction s as [|c s IH]; simpl; [reflexivity|].
  destruct (Str.isspace c) eqn:Hc; [exact IH|]. simpl. rewrite Hc. reflexivity.
Qed.

Lemma lstrip_id (s : string) : head_ok s = true -> Str.lstrip s = s.
Proof.
  destruct s as [|c s]; simpl; [reflexivity|].
  destruct (Str.isspace c); [discriminate | reflexivity].
Qed.

Lemma rstrip_head_ok (s : string) : head_ok s = true -> head_ok (Str.rstrip s) = true.
Proof.
  destruct s as [|c s]; simpl; [reflexivity|].
  destruct (Str.isspace c) eqn:Hc; [discriminate|].
  rewrite andb_false_r. simpl. rewrite Hc. reflexivity.
Qed.

Lemma rstrip_idem (s : string) : Str.rstrip (Str.rstrip s) = Str.rstrip s.
Proof.
  induction s as [|c s IH]; simpl; [reflexivity|].
  destruct (Str.is_empty (Str.rstrip s) && Str.isspace c) eqn:Hc; [reflexivity|].
  simpl. rewrite IH, Hc. reflexivity.
Qed.

(** [s.strip().strip() == s.strip()] *)
Lemma strip_idem (s : string) : Str.strip (Str.strip s) = Str.strip s.
Proof.
  unfold Str.strip.
  rewrite (lstrip_id (Str.rstrip (Str.lstrip s)))
    by (apply rstrip_head_ok, lstrip_head_ok).
  apply rstrip_idem.
Qed.

End Strip.

(** ** The constructor and the entry filter *)

Lemma init_ok (ledger : list Ledger.row) (pdf : option (list page))
    (self : BankReconciliation) :
  init ledger pdf = Ok self ->
  exists pages,
    pdf = Some pages /\
    original_df self = ledger /\
    data_entry_df self = map with_key (List.filter notna ledger) /\
    bank_df self = map strip_journal (transactions_of pages).
Proof.
  unfold init, parse_bank_pdf. destruct pdf as [pages|]; [|discriminate].
  simpl. unfold getitem, DataFrame_of_records; simpl.
  destruct (existsb _ _); [|discriminate].
  simpl. intros H. injection H as <-. exists pages. auto.
Qed.

(** After the constructor every reference key of the statement has at
    least 3 characters. *)
Lemma bank_keys_long (ledger : list Ledger.row) (pdf : option (list page))
    (self : BankReconciliation) (t : txn) :
  init ledger pdf = Ok self -> In t (bank_df self) ->
  (3 <= String.length (journal_number t))%nat.
Proof.
  intros Hi Ht. apply init_ok in Hi as (pages & _ & _ & _ & Hb).
  rewrite Hb in Ht. apply in_map_iff in Ht as (t0 & <- & Ht0).
  apply transactions_of_rows in Ht0 as (row & Hrow).
  apply parse_row_key in Hrow as ((x & Hx) & Hlen & _).
  simpl. rewrite Hx, strip_idem, <- Hx. exact Hlen.
Qed.

Lemma emit_entry (bank : list txn) (e : Ledger.entry) (r : out_row) :
  In r (all_entries (emit bank e)) \/ In r (matched_entries (emit bank e))
  \/ In r (adjusted_entries (emit bank e)) \/ In r (unmatched_entries (emit bank e)) ->
  entry r = e.
Proof.
  unfold emit, step.
  destruct (bank_lookup bank (Ledger.ChequeDDNo_str e)) as [|[idx first] rest];
    [|destruct (F64.ltb _ _)]; simpl; intuition (subst; reflexivity).
Qed.

Lemma category_entry (self : BankReconciliation) (r : out_row) :
  let c := reconcile self in
  In r (cat_all_entries c) \/ In r (cat_matched c)
  \/ In r (cat_adjusted c) \/ In r (cat_unmatched c) ->
  In (entry r) (data_entry_df self).
Proof.
  intros c H. subst c. unfold reconcile in H; simpl in H.
  destruct (loop_origin (bank_df self) (data_entry_df self)) as (IA & IM & IJ & IU & _).
  destruct H as [H|[H|[H|H]]];
    [apply IA in H | apply IM in H | apply IJ in H | apply IU in H];
    destruct H as (e & He & Hr);
    rewrite (emit_entry (bank_df self) e r) by tauto; exact He.
Qed.

Lemma emit_unmatched (bank : list txn) (e : Ledger.entry) :
  bank_lookup bank (Ledger.ChequeDDNo_str e) = [] ->
  let row_dict := to_dict e "Not Found in Bank" (VStr "") (VStr "") in
  all_entries (emit bank e) = [row_dict] /\ unmatched_entries (emit bank e) = [row_dict]
  /\ classify bank e = "Not Found in Bank".
Proof. intros Hl. unfold emit, step, classify. rewrite Hl. cbn. auto. Qed.

Lemma bank_lookup_none (bank : list txn) (key : string) :
  (forall t, In t bank -> journal_number t <> key) -> bank_lookup bank key = [].
Proof.
  intros H. destruct (bank_lookup bank key) as [|[i t] rest] eqn:Hl; [reflexivity|].
  assert (Hf : first_with_key bank key i) by (apply bank_lookup_first; eauto).
  destruct Hf as ((t' & Ht' & Hk) & _). exfalso. apply (H t'); [|exact Hk].
  apply list_elem_of_In, list_elem_of_lookup. eauto.
Qed.

(** C5, as the code has it. The filter keeps exactly the ledger rows whose
    reference key is not null: they, and only they, are counted in
    [total_entries] and have rows in the reconciliation categories.  A row
    whose key is not null but empty once trimmed is kept; it is matched
    against the statement like any other, and since every key of the
    statement has at least 3 characters it is classified Not Found in
    Bank. *)
Theorem entry_filter (ledger : list Ledger.row) (pdf : option (list page))
    (self : BankReconciliation) :
  init ledger pdf = Ok self ->
  let c := reconcile self in
  data_entry_df self = map with_key (List.filter notna ledger) /\
  total_entries (compute_stats self c) = len (List.filter notna ledger) /\
  map entry (originals (cat_all_entries c)) = map with_key (List.filter notna ledger) /\
  (forall r, In r (cat_all_entries c) \/ In r (cat_matched c)
             \/ In r (cat_adjusted c) \/ In r (cat_unmatched c) ->
     In (Ledger.src (entry r)) ledger /\
     Ledger.ChequeDDNo (Ledger.src (entry r)) <> None) /\
  (forall row, In row ledger -> Ledger.ChequeDDNo row <> None ->
     Ledger.ChequeDDNo_str (with_key row) = "" ->
     classify (bank_df self) (with_key row) = "Not Found in Bank" /\
     In (to_dict (with_key row) "Not Found in Bank" (VStr "") (VStr ""))
        (cat_unmatched c)).
Proof.
  intros Hinit c.
  destruct (init_ok _ _ _ Hinit) as (pages & _ & _ & Hd & Hb).
  assert (Hkeep : forall row, In row ledger -> Ledger.ChequeDDNo row <> None ->
                  In (with_key row) (data_entry_df self)).
  { intros row Hin Hn. rewrite Hd. apply in_map, filter_In. split; [exact Hin|].
    unfold notna. destruct (Ledger.ChequeDDNo row); [reflexivity | congruence]. }
  split; [exact Hd|]. split; [|split; [|split]].
  - unfold compute_stats, len; simpl. rewrite Hd, length_map. reflexivity.
  - rewrite <- Hd. apply (loop_spec (bank_df self) (data_entry_df self)).
  - intros r Hr. apply (category_entry self) in Hr. rewrite Hd in Hr.
    apply in_map_iff in Hr as (row & <- & Hrow). apply filter_In in Hrow as [Hin Hn].
    simpl. split; [exact Hin|]. unfold notna in Hn.
    destruct (Ledger.ChequeDDNo row); [discriminate | discriminate Hn].
  - intros row Hin Hn Hk.
    assert (Hl : bank_lookup (bank_df self) (Ledger.ChequeDDNo_str (with_key row)) = []).
    { apply bank_lookup_none. intros t Ht Heq.
      pose proof (bank_keys_long _ _ _ t Hinit Ht) as Hlen.
      rewrite Heq, Hk in Hlen. simpl in Hlen. lia. }
    destruct (emit_unmatched _ _ Hl) as (_ & Eu & Ec). split; [exact Ec|].
    destruct (emit_segment (bank_df self) (data_entry_df self) (with_key row)
                (Hkeep row Hin Hn)) as (_ & _ & _ & (u1 & u2 & Hu) & _).
    subst c. unfold reconcile; simpl. apply (in_segment _ _ _ _ _ Hu).
    rewrite Eu. left. reflexivity.
Qed.

Lemma entry_filter_witness :
  total_entries (compute_stats sample_self (reconcile sample_self))
  = len (List.filter notna sample_ledger).
Proof.
  refine (proj1 (proj2 (entry_filter sample_ledger sample_pdf sample_self _))).
  vm_compute. reflexivity.
Defined.

(** C5 as stated fails: the row whose key is two spaces has an empty key
    once trimmed, yet it is counted in [total_entries] and reported in
    [unmatched]. *)
Lemma blank_key_not_excluded :
  init sample_ledger sample_pdf = Ok sample_self /\
  Ledger.ChequeDDNo_str (with_key (ledger_row (Some "  ") (F64.of_Z 70))) = "" /\
  cat_unmatched (reconcile sample_self)
  = [to_dict (with_key (ledger_row (Some "  ") (F64.of_Z 70)))
       "Not Found in Bank" (VStr "") (VStr "")] /\
  total_entries (compute_stats sample_self (reconcile sample_self)) = 2%N /\
  matched (compute_stats sample_self (reconcile sample_self)) = 1%N.
Proof. repeat split; vm_compute; reflexivity. Qed.

(** ** Accuracy *)

(** C9. The accuracy shown is [0%] when [total_entries] is zero, and
    otherwise [matched / total_entries * 100] printed with one decimal and
    a percent sign; it is a value in both cases, never a
    [ZeroDivisionError]. *)
Theorem accuracy_guarded (s : stats) :
  accuracy s
  = Ok (if (total_entries s =? 0)%N then "0%"
        else F64.format_1f
               (F64.mul (F64.quotient (matched s) (total_entries s)) (F64.of_Z 100))
             +:+ "%") /\
  accuracy s <> Raise ZeroDivisionError /\
  accuracy (compute_stats sample_self (reconcile sample_self)) = Ok "50.0%" /\
  accuracy {| total_entries := 0; matched := 0; mismatches := 0; unmatched := 0;
              unregistered := 3; total_bank_transactions := 3 |} = Ok "0%".
Proof.
  assert (H : accuracy s
    = Ok (if (total_entries s =? 0)%N then "0%"
          else F64.format_1f
                 (F64.mul (F64.quotient (matched s) (total_entries s)) (F64.of_Z 100))
               +:+ "%")).
  { unfold accuracy, F64.truediv.
    destruct (total_entries s) as [|p]; reflexivity. }
  split; [exact H|]. split; [rewrite H; discriminate|].
  split; vm_compute; reflexivity.
Qed.

(** ** A statement without transactions *)

(** C10. When the document opens but no row survives the extraction,
    [parse_bank_pdf] returns a frame with no column and no row, and the
    constructor raises [KeyError] on the column [journal_number]: no
    reconciler is built, hence no report. *)
Theorem empty_statement_raises (ledger : list Ledger.row) (pages : list page) :
  transactions_of pages = [] ->
  parse_bank_pdf (Some pages) = Ok {| columns := []; rows := [] |} /\
  init ledger (Some pages) = Raise (KeyError "journal_number").
Proof.
  intros H. unfold init, parse_bank_pdf, DataFrame_of_records. rewrite H.
  split; reflexivity.
Qed.

(** A statement whose only table has no header row, and one whose only
    row after the header is a closing balance. *)
Lemma empty_statement_raises_witness :
  init sample_ledger (Some [[[[Some "Account"; Some "Name"];
                              [Some "123"; Some "ACME"]]]])
  = Raise (KeyError "journal_number") /\
  init sample_ledger
    (Some [[[[Some "Date"; None; Some "Particulars"; Some "Journal No"; None; None;
              Some "Amount"];
             [Some "31/01/2024"; None; Some "Closing balance"; Some "J999"; None; None;
              Some "500.00"]]]])
  = Raise (KeyError "journal_number").
Proof.
  split.
  - refine (proj2 (empty_statement_raises sample_ledger _ _)). vm_compute. reflexivity.
  - refine (proj2 (empty_statement_raises sample_ledger _ _)). vm_compute. reflexivity.
Defined.

(** ** The TOTAL row *)

Section Worksheet.

Lemma find_cell_app_l (l1 l2 : worksheet) (r c : nat) (v : xl) :
  find_cell l1 r c = Some v -> find_cell (l1 ++ l2) r c = Some v.
Proof.
  induction l1 as [|[[r' c'] v'] l1 IH]; simpl; [discriminate|].
  destruct ((r' =? r) && (c' =? c))%nat; auto.
Qed.

Lemma find_cell_app_r (l1 l2 : worksheet) (r c : nat) :
  (forall c' v, In ((r, c'), v) l1 -> False) ->
  find_cell (l1 ++ l2) r c = find_cell l2 r c.
Proof.
  induction l1 as [|[[r' c'] v'] l1 IH]; simpl; intros H; [reflexivity|].
  destruct (Nat.eqb_spec r' r) as [->|Hr]; simpl.
  - exfalso. apply (H c' v'). left. reflexivity.
  - apply IH. intros c0 v0 Hin. apply (H c0 v0). right. exact Hin.
Qed.

Lemma find_cell_row (r k j : nat) (vals : list xl) (v : xl) :
  vals !! j = Some v ->
  find_cell (imap (fun j v => ((r, S (k + j)), v)) vals) r (S (k + j)) = Some v.
Proof.
  revert k j. induction vals as [|x vals IH]; intros k j Hj; [discriminate Hj|].
  simpl. rewrite Nat.eqb_refl. simpl. destruct j as [|j].
  - rewrite Nat.eqb_refl. exact Hj.
  - replace (k + 0 =? k + S j)%nat with false by (symmetry; apply Nat.eqb_neq; lia).
    change (imap ((fun j v => ((r, S (k + j)), v)) ∘ S) vals)
      with (imap (fun j v => ((r, S (k + S j)), v)) vals).
    rewrite (imap_shift (fun n v => ((r, S n), v)) k vals).
    replace (k + S j)%nat with (S k + j)%nat by lia.
    apply IH. exact Hj.
Qed.

Lemma in_row_cells (r r' c : nat) (v : xl) (vals : list xl) :
  In ((r', c), v) (row_cells r vals) <->
  r' = r /\ exists j, c = S j /\ vals !! j = Some v.
Proof.
  unfold row_cells. rewrite <- list_elem_of_In, elem_of_lookup_imap. split.
  - intros (j & x & Heq & Hl). injection Heq as -> -> ->. eauto.
  - intros (-> & j & -> & Hl). eauto.
Qed.

Lemma in_to_excel (header : list string) (data : list (list xl)) (r c : nat) (v : xl) :
  In ((r, c), v) (to_excel header data) <->
  (r = 1%nat /\ exists j, c = S j /\ (map XStr header) !! j = Some v) \/
  (exists i vals, data !! i = Some vals /\ r = (i + 2)%nat
                  /\ exists j, c = S j /\ vals !! j = Some v).
Proof.
  unfold to_excel. rewrite in_app_iff, in_row_cells, in_concat.
  split; (intros [H|H]; [left; exact H | right]).
  - destruct H as (l & Hl & Hin).
    apply list_elem_of_In, elem_of_lookup_imap in Hl as (i & vals & -> & Hd).
    apply in_row_cells in Hin as (-> & Hj). eauto.
  - destruct H as (i & vals & Hd & -> & Hj).
    exists (row_cells (i + 2) vals). split.
    + apply list_elem_of_In, elem_of_lookup_imap. eauto.
    + apply in_row_cells. auto.
Qed.

Lemma max_list_eq (l : list nat) (n : nat) :
  In n l -> (forall x, In x l -> (x <= n)%nat) -> max_list l = n.
Proof.
  intros Hin Hle. apply Nat.le_antisymm.
  - apply Hle, list_elem_of_In, max_list_elem_of. intros ->. destruct Hin.
  - apply max_list_elem_of_le, list_elem_of_In, Hin.
Qed.

Lemma max_row_eq (ws : worksheet) (n : nat) :
  (exists c v, In ((n, c), v) ws) ->
  (forall r c v, In ((r, c), v) ws -> (r <= n)%nat) ->
  max_row ws = n.
Proof.
  intros (c & v & Hin) Hle. unfold max_row.
  destruct ws as [|x ws]; [destruct Hin|].
  apply max_list_eq.
  - apply in_map_iff. exists ((n, c), v). auto.
  - intros r Hr. apply in_map_iff in Hr as ([[r' c'] v'] & <- & Hr). eapply Hle, Hr.
Qed.

Lemma max_column_eq (ws : worksheet) (n : nat) :
  (exists r v, In ((r, n), v) ws) ->
  (forall r c v, In ((r, c), v) ws -> (c <= n)%nat) ->
  max_column ws = n.
Proof.
  intros (r & v & Hin) Hle. unfold max_column.
  destruct ws as [|x ws]; [destruct Hin|].
  apply max_list_eq.
  - apply in_map_iff. exists ((r, n), v). auto.
  - intros c Hc. apply in_map_iff in Hc as ([[r' c'] v'] & <- & Hc). eapply Hle, Hc.
Qed.

Variable header : list string.
Variable data : list (list xl).
Hypothesis header_ne : header <> [].
Hypothesis data_ne : (1 <= length data)%nat.
Hypothesis data_width : List.Forall (fun vals => length vals = length header) data.

Lemma width (i : nat) (vals : list xl) :
  data !! i = Some vals -> length vals = length header.
Proof.
  intros H. eapply List.Forall_forall in data_width; [exact data_width|].
  apply list_elem_of_In, list_elem_of_lookup. eauto.
Qed.

Lemma to_excel_max_row : max_row (to_excel header data) = (length data + 1)%nat.
Proof.
  apply max_row_eq.
  - destruct (lookup_lt_is_Some_2 data (length data - 1)) as (vals & Hv); [lia|].
    destruct (lookup_lt_is_Some_2 vals 0) as (v & Hv0).
    { rewrite (width _ _ Hv). destruct header; [congruence | simpl; lia]. }
    exists 1%nat, v. apply in_to_excel. right.
    exists (length data - 1)%nat, vals. repeat split; [exact Hv | lia | eauto].
  - intros r c v Hin. apply in_to_excel in Hin as [(-> & _)|(i & vals & Hd & -> & _)].
    + lia.
    + apply lookup_lt_Some in Hd. lia.
Qed.

Lemma to_excel_max_column : max_column (to_excel header data) = length header.
Proof.
  apply max_column_eq.
  - destruct (lookup_lt_is_Some_2 (map XStr header) (length header - 1)) as (v & Hv).
    { rewrite length_map. destruct header; [congruence | simpl; lia]. }
    exists 1%nat, v. apply in_to_excel. left. split; [reflexivity|].
    exists (length header - 1)%nat. split; [|exact Hv].
    destruct header; [congruence | simpl; lia].
  - intros r c v Hin.
    apply in_to_excel in Hin as [(_ & j & -> & Hj)|(i & vals & Hd & _ & j & -> & Hj)].
    + apply lookup_lt_Some in Hj. rewrite length_map in Hj. lia.
    + apply lookup_lt_Some in Hj. rewrite (width _ _ Hd) in Hj. lia.
Qed.

Lemma to_excel_header (j : nat) (h : string) :
  header !! j = Some h -> find_cell (to_excel header data) 1 (S j) = Some (XStr h).
Proof.
  intros Hj. unfold to_excel, row_cells. apply find_cell_app_l.
  apply (find_cell_row 1 0 j). 
  change (map XStr header) with (XStr <$> header).
  rewrite list_lookup_fmap, Hj. reflexivity.
Qed.

End Worksheet.

Lemma find_amount_col_spec (ws : worksheet) (hs : list string) (k : nat) :
  (forall j h, hs !! j = Some h -> find_cell ws 1 (S (k + j)) = Some (XStr h)) ->
  find_amount_col (seq (S k) (length hs)) ws
  = (ws, (fun c => S (k + c)) <$> index_of "Amount" hs).
Proof.
  revert k. induction hs as [|h hs IH]; intros k H; [reflexivity|].
  simpl. unfold get_cell.
  pose proof (H 0%nat h eq_refl) as H0. rewrite Nat.add_0_r in H0. rewrite H0.
  destruct (Str.eqb h "Amount"); simpl.
  - rewrite Nat.add_0_r. reflexivity.
  - rewrite (IH (S k)).
    + destruct (index_of "Amount" hs); simpl; [|reflexivity].
      do 2 f_equal. lia.
    + intros j h' Hj. replace (S k + j)%nat with (k + S j)%nat by lia.
      apply H. exact Hj.
Qed.

Lemma index_of_lt (x : string) (l : list string) (i : nat) :
  index_of x l = Some i -> (i < length l)%nat /\ l !! i = Some x.
Proof.
  revert i. induction l as [|h l IH]; intros i H; [discriminate H|].
  simpl in H. destruct (Str.eqb h x) eqn:Hh.
  - injection H as <-. apply String.eqb_eq in Hh. subst. simpl. split; [lia | reflexivity].
  - destruct (index_of x l) as [i'|]; [|discriminate H]. injection H as <-.
    destruct (IH i' eq_refl). simpl. split; [lia | assumption].
Qed.

Lemma with_totals (name : sheet_name) :
  name <> Summary -> bool_decide (name ∈ sheets_with_totals) = true.
Proof.
  intros H. apply bool_decide_eq_true. unfold sheets_with_totals.
  destruct name; try congruence; repeat constructor.
Qed.

(** C8. A sheet other than Summary, written from a frame that has an
    [Amount] column (the first one at position [col], from 0) and
    [n >= 1] data rows, gets one more row, row [n + 2]; its cell in the
    [Amount] column is the text of a SUM formula from row 2 to row [n + 1]
    of that column; every cell above is left as it was. *)
Theorem total_row_formula (name : sheet_name) (header : list string)
    (data : list (list xl)) (col : nat) :
  name <> Summary ->
  (1 <= length data)%nat ->
  List.Forall (fun vals => length vals = length header) data ->
  index_of "Amount" header = Some col ->
  (N.of_nat (length header) <= 16384)%N ->
  let n := length data in
  let letter := column_letters (S col) (S col) "" in
  exists ws',
    add_total name (to_excel header data) = Ok ws' /\
    get_column_letter (S col) = Ok letter /\
    max_row ws' = (n + 2)%nat /\
    cell_value ws' (n + 2) (S col)
    = XStr ("=SUM(" +:+ letter +:+ "2:" +:+ letter
              +:+ Str.of_N (N.of_nat (n + 1)) +:+ ")") /\
    (col <> 0%nat -> cell_value ws' (n + 2) 1 = XStr "TOTAL") /\
    (forall r c, (r <= n + 1)%nat ->
       cell_value ws' r c = cell_value (to_excel header data) r c).
Proof.
  intros Hname Hn Hw Hcol Hmax n letter.
  assert (Hne : header <> []) by (intros ->; discriminate Hcol).
  destruct (index_of_lt _ _ _ Hcol) as (Hlt & _).
  pose proof (to_excel_max_row header data Hne Hn Hw) as Hrow.
  pose proof (to_excel_max_column header data Hne Hn Hw) as Hcolumn.
  assert (Hletter : get_column_letter (S col) = Ok letter).
  { unfold get_column_letter.
    replace (N.of_nat (S col) <=? 18278)%N with true
      by (symmetry; apply N.leb_le; lia).
    reflexivity. }
  unfold add_total.
  rewrite bool_decide_eq_false_2 by exact Hname.
  rewrite (with_totals name Hname), Hrow, Hcolumn.
  replace (1 <? length data + 1)%nat with true by (symmetry; apply Nat.ltb_lt; lia).
  simpl andb. cbv iota.
  rewrite (find_amount_col_spec (to_excel header data) header 0)
    by (intros j h Hj; apply to_excel_header; exact Hj).
  rewrite Hcol. cbn [fmap option_fmap option_map].
  change (0 + col)%nat with col.
  rewrite Hletter. cbn [mbind Py_bind].
  assert (Hrow1 : max_row (set_value (to_excel header data) (length data + 1 + 1) 1
                             (XStr "TOTAL")) = (n + 2)%nat).
  { apply max_row_eq.
    - exists 1%nat, (XStr "TOTAL"). left. f_equal. f_equal. subst n. lia.
    - intros r c v [Heq|Hin].
      + injection Heq as <- _ _. subst n. lia.
      + assert (r <= max_row (to_excel header data))%nat; [|subst n; lia].
        unfold max_row. destruct (to_excel header data) as [|x ws] eqn:Hws; [destruct Hin|].
        apply max_list_elem_of_le, list_elem_of_In, in_map_iff.
        exists ((r, c), v). auto. }
  eexists. split; [reflexivity|]. split; [reflexivity|].
  rewrite Hrow1.
  replace (length data + 1 + 1)%nat with (n + 2)%nat by (subst n; lia).
  replace (n + 2 - 1)%nat with (n + 1)%nat by lia.
  split; [|split; [|split]].
  - apply max_row_eq.
    + exists (S col), (XStr ("=SUM(" +:+ letter +:+ "2:" +:+ letter
                 +:+ Str.of_N (N.of_nat (n + 1)) +:+ ")")).
      left. reflexivity.
    + intros r c v [Heq|Hin].
      * injection Heq as <- _ _. lia.
      * replace (n + 2)%nat with (length data + 1 + 1)%nat in Hin by (subst n; lia).
        assert (In r (map (fun c => c.1.1)
                  (set_value (to_excel header data) (length data + 1 + 1) 1 (XStr "TOTAL")))).
        { apply in_map_iff. exists ((r, c), v). auto. }
        rewrite <- Hrow1. unfold max_row, set_value.
        apply max_list_elem_of_le, list_elem_of_In. exact H.
  - unfold cell_value, set_value. simpl. rewrite !Nat.eqb_refl. reflexivity.
  - intros Hc. unfold cell_value, set_value. simpl. rewrite !Nat.eqb_refl.
    destruct col; [congruence|]. simpl. rewrite ?andb_false_r. reflexivity.
  - intros r c Hr. unfold cell_value, set_value. simpl.
    replace (n + 2 =? r)%nat with false by (symmetry; apply Nat.eqb_neq; lia).
    reflexivity.
Qed.

Lemma total_row_formula_witness :
  exists ws',
    add_total AllEntries
      (to_excel ["ChequeDDNo"; "Amount"; "Status"]
         [[XStr "J100"; XNum (F64.of_Z 100); XStr "Matched"];
          [XStr "J200"; XNum (F64.of_Z 250); XStr "Not Found in Bank"];
          [XStr "J300"; XNum (F64.of_Z 75); XStr "Matched"]]) = Ok ws' /\
    cell_value ws' 5 2 = XStr "=SUM(B2:B4)" /\
    cell_value ws' 5 1 = XStr "TOTAL".
Proof.
  destruct (total_row_formula AllEntries ["ChequeDDNo"; "Amount"; "Status"]
              [[XStr "J100"; XNum (F64.of_Z 100); XStr "Matched"];
               [XStr "J200"; XNum (F64.of_Z 250); XStr "Not Found in Bank"];
               [XStr "J300"; XNum (F64.of_Z 75); XStr "Matched"]] 1%nat)
    as (ws' & H1 & _ & _ & H2 & H3 & _).
  - discriminate.
  - simpl. lia.
  - repeat constructor.
  - reflexivity.
  - simpl. lia.
  - exists ws'. split; [exact H1|]. split; [exact H2|]. apply H3. discriminate.
Defined.

(** A sheet that holds only a placeholder message has no [Amount] column
    and is left without a TOTAL row. *)
Lemma placeholder_no_total (name : sheet_name) (message : string) :
  add_total name (to_excel ["Message"] [[XStr message]])
  = Ok (to_excel ["Message"] [[XStr message]]).
Proof.
  unfold add_total. destruct (bool_decide (name = Summary)); [reflexivity|].
  destruct (bool_decide (name ∈ sheets_with_totals)); reflexivity.
Qed.

(** * Further properties *)

(** ** The matcher on a ledger in two parts *)

Lemma loop_app (bank : list txn) (es1 es2 : list Ledger.entry) :
  reconcile_loop bank (es1 ++ es2)
  = acc_app (reconcile_loop bank es1) (reconcile_loop bank es2).
Proof. unfold reconcile_loop. rewrite fold_left_app. apply loop_from. Qed.

(** X1. Reconciling a ledger that is two ledgers one after the other gives,
    in every category of ledger rows, the rows of the first followed by
    the rows of the second; a statement transaction is unregistered for
    the whole exactly when it is unregistered for each part. *)
Theorem reconcile_app (self : BankReconciliation) (es1 es2 : list Ledger.entry) :
  let c := reconcile (with_entries self (es1 ++ es2)) in
  let c1 := reconcile (with_entries self es1) in
  let c2 := reconcile (with_entries self es2) in
  cat_all_entries c = cat_all_entries c1 ++ cat_all_entries c2 /\
  cat_matched c = cat_matched c1 ++ cat_matched c2 /\
  cat_adjusted c = cat_adjusted c1 ++ cat_adjusted c2 /\
  cat_unmatched c = cat_unmatched c1 ++ cat_unmatched c2 /\
  forall x, In x (cat_unregistered_idx c) <->
            In x (cat_unregistered_idx c1) /\ In x (cat_unregistered_idx c2).
Proof.
  intros c c1 c2. subst c c1 c2. unfold reconcile, with_entries; simpl.
  rewrite loop_app. simpl. do 4 (split; [reflexivity|]).
  intros x. split.
  - intros H. apply in_map_iff in H as (it & <- & Hin).
    apply filter_In in Hin as [Hin Hm].
    apply negb_true_iff, bool_decide_eq_false in Hm.
    split; apply (in_map (fun it => (it.1, unregistered_entry it.2))), filter_In;
      (split; [exact Hin|]);
      apply negb_true_iff, bool_decide_eq_false; intros Hx; apply Hm;
      apply elem_of_union; [left | right]; exact Hx.
  - intros [H1 H2]. apply in_map_iff in H1 as (it & <- & Hin1).
    apply in_map_iff in H2 as (it2 & Heq & Hin2).
    apply filter_In in Hin1 as [Hin Hm1]. apply filter_In in Hin2 as [Hin2 Hm2].
    assert (it2 = it).
    { destruct it as [i t], it2 as [i2 t2]. simpl in Heq. injection Heq as -> _.
      apply in_imap_pair in Hin. apply in_imap_pair in Hin2.
      rewrite Hin in Hin2. injection Hin2 as ->. reflexivity. }
    subst it2. apply (in_map (fun it => (it.1, unregistered_entry it.2))), filter_In.
    split; [exact Hin|].
    apply negb_true_iff, bool_decide_eq_false in Hm1.
    apply negb_true_iff, bool_decide_eq_false in Hm2.
    apply negb_true_iff, bool_decide_eq_false. intros Hx.
    apply elem_of_union in Hx as [Hx|Hx]; contradiction.
Qed.

(** ** How many rows each sheet gets *)

Lemma mismatches_count (self : BankReconciliation) (c : categories) :
  mismatches (compute_stats self c) = len (with_status "Amount Mismatch" (cat_adjusted c)).
Proof.
  unfold compute_stats; simpl. destruct (cat_adjusted c) as [|r l]; [reflexivity|].
  replace (0 <? len (r :: l))%N with true; [reflexivity|].
  symmetry. apply N.ltb_lt. unfold len. simpl. lia.
Qed.

Lemma loop_counts (bank : list txn) (es : list Ledger.entry) :
  let a := reconcile_loop bank es in
  let k := length (with_status "Amount Mismatch" (adjusted_entries a)) in
  length (all_entries a) = (length es + k)%nat /\
  length (adjusted_entries a) = (2 * k)%nat /\
  length (with_status "Adjustment Entry" (adjusted_entries a)) = k.
Proof.
  induction es as [|e es IH]; [cbn; auto|].
  rewrite loop_cons. cbn zeta in *. destruct IH as (I1 & I2 & I3).
  unfold acc_app; simpl. rewrite !with_status_app, !length_app, I1, I2, I3.
  assert (E : let b := emit bank e in
              let j := length (with_status "Amount Mismatch" (adjusted_entries b)) in
              length (all_entries b) = (1 + j)%nat /\
              length (adjusted_entries b) = (2 * j)%nat /\
              length (with_status "Adjustment Entry" (adjusted_entries b)) = j).
  { unfold emit, step.
    destruct (bank_lookup bank (Ledger.ChequeDDNo_str e)) as [|[idx first] rest];
      [|destruct (F64.ltb _ _)]; cbn; auto. }
  cbn zeta in E. destruct E as (E1 & E2 & E3). rewrite E1, E2, E3.
  repeat split; lia.
Qed.

(** X2. [all_entries] has one row per filtered ledger entry and one more
    per mismatch; [adjusted] has two rows per mismatch, one of them an
    Adjustment Entry. *)
Theorem sheet_row_counts (self : BankReconciliation) :
  let c := reconcile self in
  let s := compute_stats self c in
  (len (cat_all_entries c) = total_entries s + mismatches s)%N /\
  (len (cat_adjusted c) = 2 * mismatches s)%N /\
  len (with_status "Adjustment Entry" (cat_adjusted c)) = mismatches s.
Proof.
  intros c s. subst s. rewrite mismatches_count. subst c.
  destruct (loop_counts (bank_df self) (data_entry_df self)) as (H1 & H2 & H3).
  cbn zeta in *. unfold reconcile, compute_stats, len; simpl.
  rewrite H1, H2, H3. repeat split; lia.
Qed.

(** ** The statement side *)

Lemma map_fst_imap {A} (k : nat) (l : list A) :
  map fst (imap (fun j x => ((k + j)%nat, x)) l) = seq k (length l).
Proof.
  revert k. induction l as [|x l IH]; intros k; [reflexivity|].
  simpl. rewrite Nat.add_0_r. f_equal.
  change (imap ((fun j x0 => ((k + j)%nat, x0)) ∘ S) l)
    with (imap (fun j x0 => ((k + S j)%nat, x0)) l).
  rewrite (imap_shift (fun n x0 => (n, x0)) k l). apply IH.
Qed.

Lemma map_snd_imap {A} (k : nat) (l : list A) :
  map snd (imap (fun j x => ((k + j)%nat, x)) l) = l.
Proof.
  revert k. induction l as [|x l IH]; intros k; [reflexivity|].
  simpl. f_equal.
  change (imap ((fun j x0 => ((k + j)%nat, x0)) ∘ S) l)
    with (imap (fun j x0 => ((k + S j)%nat, x0)) l).
  rewrite (imap_shift (fun n x0 => (n, x0)) k l). apply IH.
Qed.

Lemma map_fst_filter {A B} (p : A -> bool) (l : list (A * B)) :
  map fst (List.filter (fun it => p it.1) l) = List.filter p (map fst l).
Proof.
  induction l as [|[a b] l IH]; [reflexivity|].
  simpl. destruct (p a); simpl; rewrite IH; reflexivity.
Qed.

Lemma unregistered_indices (self : BankReconciliation) :
  map fst (cat_unregistered_idx (reconcile self))
  = List.filter (fun i => negb (bool_decide (i ∈ marked self)))
      (seq 0 (length (bank_df self))).
Proof.
  unfold reconcile, not_matched, marked; simpl. rewrite map_map.
  rewrite (map_ext _ fst) by (intros []; reflexivity).
  pose proof (map_fst_filter (fun i => negb (bool_decide
                (i ∈ bank_matched (reconcile_loop (bank_df self) (data_entry_df self)))))
                (imap pair (bank_df self))) as H.
  cbv beta in H. rewrite H. f_equal. apply (map_fst_imap 0).
Qed.

Lemma filter_seq_sorted (p : nat -> bool) (k n : nat) :
  StronglySorted lt (List.filter p (seq k n)).
Proof.
  revert k. induction n as [|n IH]; intros k; [constructor|].
  simpl. destruct (p k); [|apply IH].
  constructor; [apply IH|]. apply List.Forall_forall. intros x Hx.
  apply filter_In in Hx as [Hx _]. apply in_seq in Hx. lia.
Qed.

Lemma filter_count (p : nat -> bool) (l : list nat) :
  (length (List.filter p l) + length (List.filter (fun i => negb (p i)) l)
   = length l)%nat.
Proof.
  induction l as [|x l IH]; [reflexivity|].
  simpl. destruct (p x); simpl; lia.
Qed.

Lemma marked_lt (self : BankReconciliation) (i : nat) :
  i ∈ marked self -> (i < length (bank_df self))%nat.
Proof.
  intros H. apply marked_consumed in H as (e & _ & (t & Ht & _) & _).
  apply lookup_lt_Some in Ht. exact Ht.
Qed.

Lemma marked_size (self : BankReconciliation) :
  size (marked self)
  = length (List.filter (fun i => bool_decide (i ∈ marked self))
              (seq 0 (length (bank_df self)))).
Proof.
  rewrite <- (size_list_to_set (C := gset nat)).
  - f_equal. apply set_eq. intros i. rewrite elem_of_list_to_set, list_elem_of_In.
    rewrite filter_In, in_seq, bool_decide_eq_true. split.
    + intros H. split; [|exact H]. apply marked_lt in H. lia.
    + intros [_ H]. exact H.
  - apply NoDup_ListNoDup, List.NoDup_filter, List.seq_NoDup.
Qed.

Lemma marked_le (bank : list txn) (es : list Ledger.entry) :
  let a := reconcile_loop bank es in
  (size (bank_matched a)
   <= length (matched_entries a)
      + length (with_status "Amount Mismatch" (adjusted_entries a)))%nat.
Proof.
  induction es as [|e es IH]; [cbn; rewrite size_empty; lia|].
  rewrite loop_cons. cbn zeta in *. unfold acc_app; simpl.
  rewrite with_status_app, !length_app.
  assert (E : (size (bank_matched (emit bank e))
               <= length (matched_entries (emit bank e))
                  + length (with_status "Amount Mismatch"
                              (adjusted_entries (emit bank e))))%nat).
  { unfold emit, step.
    destruct (bank_lookup bank (Ledger.ChequeDDNo_str e)) as [|[idx first] rest];
      [|destruct (F64.ltb _ _)]; cbn;
      rewrite ?union_empty_r_L, ?size_empty, ?size_singleton; lia. }
  pose proof (size_union_alt (bank_matched (emit bank e))
                (bank_matched (reconcile_loop bank es))) as Hu.
  pose proof (subseteq_size
                (bank_matched (reconcile_loop bank es) ∖ bank_matched (emit bank e))
                (bank_matched (reconcile_loop bank es))
                ltac:(apply subseteq_difference_l; reflexivity)) as Hd.
  lia.
Qed.

(** X3. Every statement transaction is either marked by the loop or
    unregistered, so the two counts add up to the number of statement
    transactions; and no more transactions are marked than entries were
    matched or mismatched, so the statistics have
    [total_bank_transactions <= unregistered + matched + mismatches]. *)
Theorem statement_counts (self : BankReconciliation) :
  let s := generate_report self in
  (unregistered s + N.of_nat (size (marked self)) = total_bank_transactions s)%N /\
  (N.of_nat (size (marked self)) <= matched s + mismatches s)%N /\
  (total_bank_transactions s <= unregistered s + matched s + mismatches s)%N.
Proof.
  intros s. subst s. unfold generate_report.
  assert (H1 : (unregistered (compute_stats self (reconcile self))
                + N.of_nat (size (marked self))
                = total_bank_transactions (compute_stats self (reconcile self)))%N).
  { assert (Hlen : length (cat_unregistered (reconcile self))
                   = length (map fst (cat_unregistered_idx (reconcile self))))
      by (unfold cat_unregistered; rewrite !length_map; reflexivity).
    unfold compute_stats, len. cbn [unregistered total_bank_transactions].
    rewrite Hlen, unregistered_indices, marked_size.
    pose proof (filter_count (fun i => bool_decide (i ∈ marked self))
                  (seq 0 (length (bank_df self)))) as Hc.
    rewrite length_seq in Hc. lia. }
  assert (H2 : (N.of_nat (size (marked self))
                <= matched (compute_stats self (reconcile self))
                   + mismatches (compute_stats self (reconcile self)))%N).
  { rewrite mismatches_count. unfold compute_stats, len, reconcile, marked; simpl.
    pose proof (marked_le (bank_df self) (data_entry_df self)) as Hm.
    cbn zeta in Hm. lia. }
  split; [exact H1|]. split; [exact H2|]. lia.
Qed.

(** X4. The unregistered records come in the order of the statement, no
    transaction twice: their index labels increase strictly. *)
Theorem unregistered_in_statement_order (self : BankReconciliation) :
  StronglySorted lt (map fst (cat_unregistered_idx (reconcile self))).
Proof. rewrite unregistered_indices. apply filter_seq_sorted. Qed.

(** X5. When two statement transactions share a reference key, the later
    one is never consumed: it is reported as unregistered whatever the
    ledger holds. *)
Theorem duplicate_key_unregistered (self : BankReconciliation) (i j : nat) (t t' : txn) :
  bank_df self !! i = Some t -> bank_df self !! j = Some t' ->
  (j < i)%nat -> journal_number t' = journal_number t ->
  In (i, unregistered_entry t) (cat_unregistered_idx (reconcile self)).
Proof.
  intros Hi Hj Hlt Hk. apply unregistered_rows. exists t.
  split; [exact Hi|]. split; [reflexivity|].
  intros (e & _ & (t0 & Ht0 & Hk0) & Hmin).
  rewrite Hi in Ht0. injection Ht0 as <-.
  apply (Hmin j t' Hlt Hj). congruence.
Qed.

Lemma duplicate_key_unregistered_witness :
  In (1%nat, unregistered_entry (one_txn (F64.of_Z 100)))
     (cat_unregistered_idx (reconcile twice_paid)).
Proof.
  refine (duplicate_key_unregistered twice_paid 1 0 (one_txn (F64.of_Z 100))
            (one_txn (F64.of_Z 100)) _ _ _ _).
  - reflexivity.
  - reflexivity.
  - lia.
  - reflexivity.
Defined.

(** ** A ledger and a statement without a common key *)

Lemma loop_no_match (bank : list txn) (es : list Ledger.entry) :
  (forall e, In e es -> bank_lookup bank (Ledger.ChequeDDNo_str e) = []) ->
  reconcile_loop bank es
  = {| all_entries := map (fun e => to_dict e "Not Found in Bank" (VStr "") (VStr "")) es;
       matched_entries := [];
       adjusted_entries := [];
       unmatched_entries :=
         map (fun e => to_dict e "Not Found in Bank" (VStr "") (VStr "")) es;
       bank_matched := ∅ |}.
Proof.
  induction es as [|e es IH]; intros H; [reflexivity|].
  rewrite loop_cons, IH by (intros e' He'; apply H; right; exact He').
  unfold emit, step. rewrite (H e) by (left; reflexivity).
  apply acc_eq; simpl; rewrite ?union_empty_r_L; reflexivity.
Qed.

(** X6. When no key of the filtered ledger is the key of a statement
    transaction (an empty ledger included), nothing is matched or
    adjusted: every entry is Not Found in Bank, in order, and every
    statement transaction is unregistered, in order. *)
Theorem no_common_key (self : BankReconciliation) :
  (forall e t, In e (data_entry_df self) -> In t (bank_df self) ->
     journal_number t <> Ledger.ChequeDDNo_str e) ->
  let c := reconcile self in
  cat_matched c = [] /\ cat_adjusted c = [] /\
  cat_unmatched c
  = map (fun e => to_dict e "Not Found in Bank" (VStr "") (VStr "")) (data_entry_df self) /\
  cat_all_entries c = cat_unmatched c /\
  cat_unregistered c = map unregistered_entry (bank_df self).
Proof.
  intros H c. subst c. unfold reconcile, cat_unregistered.
  rewrite loop_no_match
    by (intros e He; apply bank_lookup_none; intros t Ht; apply (H e t He Ht)).
  simpl. repeat split. unfold not_matched.
  rewrite forallb_filter_id.
  - rewrite map_map. simpl. rewrite <- (map_map snd unregistered_entry).
    rewrite (map_snd_imap 0). reflexivity.
  - apply forallb_forall. intros it _. apply negb_true_iff, bool_decide_eq_false.
    apply not_elem_of_empty.
Qed.

Lemma no_common_key_witness :
  cat_unmatched (reconcile strangers)
  = [to_dict (one_entry "J200" (F64.of_Z 100)) "Not Found in Bank" (VStr "") (VStr "")]
  /\ cat_unregistered (reconcile strangers) = [unregistered_entry (one_txn (F64.of_Z 100))].
Proof.
  destruct (no_common_key strangers) as (_ & _ & H1 & _ & H2).
  - intros e t [<-|[]] [<-|[]]. vm_compute. discriminate.
  - split; [exact H1 | exact H2].
Defined.

(** ** The shape of the report rows *)

(** X7. Every row of [all_entries] has one of four shapes.  A row that
    stands for a ledger entry keeps the ledger's amount and remarks; it is
    Matched with the bank amount and the difference 0 (the amounts then
    differ by less than 1.0), an Amount Mismatch with the bank amount and
    the difference bank minus entry, or Not Found in Bank with empty bank
    amount and difference.  An Adjustment Entry has the difference as its
    amount. *)
Theorem row_shapes (self : BankReconciliation) (r : out_row) :
  In r (cat_all_entries (reconcile self)) ->
  let a := Ledger.Amount (Ledger.src (entry r)) in
  (Status r = "Matched" /\ Amount r = a /\ Remarks r = LedgerRemarks /\
   Difference r = VInt 0 /\
   exists b, Bank_Amount r = VFloat b /\ F64.ltb (F64.abs (F64.sub b a)) F64.one = true) \/
  (Status r = "Amount Mismatch" /\ Amount r = a /\ Remarks r = LedgerRemarks /\
   exists b, Bank_Amount r = VFloat b /\ Difference r = VFloat (F64.sub b a) /\
             F64.ltb (F64.abs (F64.sub b a)) F64.one = false) \/
  (Status r = "Adjustment Entry" /\
   exists b, Bank_Amount r = VFloat b /\ Amount r = F64.sub b a /\
             Difference r = VFloat (F64.sub b a) /\
             Remarks r = AdjustmentFor (Ledger.ChequeDDNo_str (entry r)) b a (F64.sub b a)) \/
  (Status r = "Not Found in Bank" /\ Amount r = a /\ Remarks r = LedgerRemarks /\
   Bank_Amount r = VStr "" /\ Difference r = VStr "").
Proof.
  intros Hin a. unfold reconcile in Hin; simpl in Hin.
  destruct (loop_origin (bank_df self) (data_entry_df self)) as (IA & _).
  destruct (IA r Hin) as (e & _ & Hr). clear IA Hin. subst a.
  unfold emit, step in Hr.
  destruct (bank_lookup (bank_df self) (Ledger.ChequeDDNo_str e)) as [|[idx first] rest].
  - simpl in Hr. destruct Hr as [<-|[]]. right. right. right. simpl. auto.
  - destruct (F64.ltb (F64.abs (F64.sub (amount first) (Ledger.Amount (Ledger.src e))))
                F64.one) eqn:Hlt; simpl in Hr.
    + destruct Hr as [<-|[]]. left. simpl. repeat split. eauto.
    + destruct Hr as [<-|[<-|[]]].
      * right. left. simpl. repeat split. eauto.
      * right. right. left. simpl. split; [reflexivity|]. eauto.
Qed.

Lemma row_shapes_witness :
  exists r, In r (cat_all_entries (reconcile (one_pair (F64.of_Z 250) (F64.of_Z 100)))) /\
            Status r = "Adjustment Entry" /\
            Difference r = VFloat (Amount r).
Proof.
  exists {| entry := one_entry "J100" (F64.of_Z 100);
            Amount := F64.sub (F64.of_Z 250) (F64.of_Z 100);
            Remarks := AdjustmentFor "J100" (F64.of_Z 250) (F64.of_Z 100)
                         (F64.sub (F64.of_Z 250) (F64.of_Z 100));
            Status := "Adjustment Entry";
            Bank_Amount := VFloat (F64.of_Z 250);
            Difference := VFloat (F64.sub (F64.of_Z 250) (F64.of_Z 100)) |}.
  assert (Hin : In {| entry := one_entry "J100" (F64.of_Z 100);
            Amount := F64.sub (F64.of_Z 250) (F64.of_Z 100);
            Remarks := AdjustmentFor "J100" (F64.of_Z 250) (F64.of_Z 100)
                         (F64.sub (F64.of_Z 250) (F64.of_Z 100));
            Status := "Adjustment Entry";
            Bank_Amount := VFloat (F64.of_Z 250);
            Difference := VFloat (F64.sub (F64.of_Z 250) (F64.of_Z 100)) |}
            (cat_all_entries (reconcile (one_pair (F64.of_Z 250) (F64.of_Z 100))))).
  { vm_compute. right. left. reflexivity. }
  split; [exact Hin|].
  destruct (row_shapes _ _ Hin) as [(H & _)|[(H & _)|[(H & b & _ & Ha & Hd & _)|(H & _)]]];
    try discriminate H.
  split; [exact H|]. rewrite Hd, Ha. reflexivity.
Defined.

(** ** A ledger amount that is not a number *)

Lemma sub_nan (x : F64.float) : F64.sub x F64.nan = F64.nan.
Proof. destruct x; reflexivity. Qed.

(** X8. A ledger entry whose amount is NaN (an empty Amount cell) and
    whose key is in the statement is never Matched: it is an Amount
    Mismatch, and its adjustment row carries NaN as amount. *)
Theorem nan_amount_mismatch (self : BankReconciliation) (e : Ledger.entry)
    (idx : nat) (first : txn) (rest : list (nat * txn)) :
  In e (data_entry_df self) ->
  bank_lookup (bank_df self) (Ledger.ChequeDDNo_str e) = (idx, first) :: rest ->
  Ledger.Amount (Ledger.src e) = F64.nan ->
  classify (bank_df self) e = "Amount Mismatch" /\
  exists adj, In adj (cat_adjusted (reconcile self)) /\ entry adj = e /\
              Status adj = "Adjustment Entry" /\ Amount adj = F64.nan.
Proof.
  intros Hin Hl Hn.
  assert (Hlt : F64.ltb (F64.abs (F64.sub (amount first) (Ledger.Amount (Ledger.src e))))
                  F64.one = false) by (rewrite Hn, sub_nan; reflexivity).
  destruct (emit_mismatch _ _ _ _ _ Hl Hlt) as (_ & _ & Ej & _ & Ec).
  split; [exact Ec|].
  destruct (emit_segment (bank_df self) (data_entry_df self) e Hin)
    as (_ & _ & (j1 & j2 & Hj) & _).
  eexists. split.
  - unfold reconcile; simpl. apply (in_segment _ _ _ _ _ Hj). rewrite Ej.
    right. left. reflexivity.
  - simpl. rewrite Hn, sub_nan. auto.
Qed.

Lemma nan_amount_mismatch_witness :
  classify [one_txn (F64.of_Z 100)] (one_entry "J100" F64.nan) = "Amount Mismatch".
Proof.
  refine (proj1 (nan_amount_mismatch (one_pair (F64.of_Z 100) F64.nan)
                   (one_entry "J100" F64.nan) 0%nat (one_txn (F64.of_Z 100)) [] _ _ _)).
  - left. reflexivity.
  - vm_compute. reflexivity.
  - reflexivity.
Defined.

(** ** Rows, headers and tables of the statement *)

(** X9. Although the guard of the loop lets rows of 5 and 6 cells through,
    a row of fewer than 7 cells never yields a transaction: it has no
    amount column, the amount defaults to 0 and is not positive. *)
Theorem short_row_skipped (row : trow) :
  (length row < 7)%nat -> parse_row row = None.
Proof.
  intros Hlen. unfold parse_row.
  destruct (length row <? 5)%nat; [reflexivity|].
  destruct (existsb _ exclusion_keywords); [reflexivity|].
  unfold parse_row_body. destruct (row !! 0%nat) as [c0|]; [|reflexivity].
  simpl.
  assert (H6 : field row 6 "0" = "0").
  { unfold field. destruct (row !! 6%nat) as [c|] eqn:E; [|reflexivity].
    apply lookup_lt_Some in E. lia. }
  rewrite H6.
  destruct (Str.is_empty (field row 3 "") || Str.eqb (field row 3 "") "None"
            || (String.length (field row 3 "") <? 3)%nat); [reflexivity|].
  replace (parse_amount (Some "0")) with (Ok F64.zero) by (vm_compute; reflexivity).
  reflexivity.
Qed.

Lemma short_row_skipped_witness : parse_row six_cells = None.
Proof. apply (short_row_skipped six_cells). simpl. lia. Defined.

Lemma header_idx_first (k : nat) (pre : list trow) (hdr : trow) (rows : list trow) :
  forallb (fun r => negb (is_header r)) pre = true -> is_header hdr = true ->
  header_idx_from k (pre ++ hdr :: rows) = Some (k + length pre)%nat.
Proof.
  revert k. induction pre as [|r pre IH]; intros k Hpre Hh; simpl.
  - rewrite Hh, Nat.add_0_r. reflexivity.
  - simpl in Hpre. apply andb_true_iff in Hpre as [Hr Hpre].
    apply negb_true_iff in Hr. rewrite Hr, (IH (S k) Hpre Hh). f_equal. lia.
Qed.

Lemma header_idx_none (k : nat) (t : table) :
  forallb (fun r => negb (is_header r)) t = true -> header_idx_from k t = None.
Proof.
  revert k. induction t as [|r t IH]; intros k H; [reflexivity|].
  simpl in *. apply andb_true_iff in H as [Hr Ht].
  apply negb_true_iff in Hr. rewrite Hr. apply IH, Ht.
Qed.

(** X10. The header of a table is its first row with a cell that holds
    JOURNAL: the rows up to and including it are never read as
    transactions, and every row after it is, later header-like rows
    included. *)
Theorem rows_after_first_header (pre : list trow) (hdr : trow) (rows : list trow) :
  forallb (fun r => negb (is_header r)) pre = true -> is_header hdr = true ->
  parse_table (pre ++ hdr :: rows) = omap parse_row rows.
Proof.
  intros Hpre Hh. unfold parse_table, header_idx.
  rewrite (header_idx_first 0 pre hdr rows Hpre Hh). simpl.
  destruct (length (pre ++ hdr :: rows) <? 2)%nat eqn:Hlen.
  - apply Nat.ltb_lt in Hlen. rewrite length_app in Hlen. simpl in Hlen.
    destruct rows; [reflexivity | simpl in Hlen; lia].
  - replace (pre ++ hdr :: rows) with ((pre ++ [hdr]) ++ rows)
      by (rewrite <- app_assoc; reflexivity).
    rewrite drop_app_length'; [reflexivity|].
    rewrite length_app. simpl. lia.
Qed.

Lemma rows_after_first_header_witness :
  parse_table late_header
  = omap parse_row [[Some "01/01/2024"; Some "01/01/2024"; Some "DEPOSIT"; Some "J100";
                     None; None; Some "Nu. 100.00"]].
Proof.
  refine (rows_after_first_header
            [[Some "Bank of Bhutan"; None; None; None; None; None; None]]
            [Some "Post Date"; Some "Value Date"; Some "Particulars"; Some "Journal No";
             Some "Cheque"; Some "Debit"; Some "Credit"] _ _ _).
  - vm_compute. reflexivity.
  - vm_compute. reflexivity.
Defined.

Lemma transactions_of_nil (pages : list page) :
  (forall p t, In p pages -> In t p -> parse_table t = []) ->
  transactions_of pages = [].
Proof.
  intros H. unfold transactions_of. induction pages as [|p pages IH]; [reflexivity|].
  simpl. rewrite IH by (intros p' t Hp Ht; apply (H p' t); [right|]; assumption).
  rewrite app_nil_r.
  assert (Hp : forall t, In t p -> parse_table t = [])
    by (intros t Ht; apply (H p t); [left; reflexivity | exact Ht]).
  clear H IH. induction p as [|t p IHp]; [reflexivity|].
  simpl. rewrite (Hp t) by (left; reflexivity).
  apply IHp. intros t' Ht'. apply Hp. right. exact Ht'.
Qed.

(** X11. A statement none of whose tables has a row with a JOURNAL cell
    (each table starts afresh: a header met in an earlier table does not
    count) gives no transaction, and the constructor fails with
    [KeyError] on [journal_number]. *)
Theorem no_header_no_reconciler (ledger : list Ledger.row) (pages : list page) :
  (forall p t, In p pages -> In t p ->
     forallb (fun r => negb (is_header r)) t = true) ->
  transactions_of pages = [] /\
  init ledger (Some pages) = Raise (KeyError "journal_number").
Proof.
  intros H.
  assert (Hnil : transactions_of pages = []).
  { apply transactions_of_nil. intros p t Hp Ht. unfold parse_table, header_idx.
    rewrite (header_idx_none 0 t (H p t Hp Ht)).
    destruct (length t <? 2)%nat; reflexivity. }
  split; [exact Hnil|].
  unfold init, parse_bank_pdf, DataFrame_of_records. rewrite Hnil. reflexivity.
Qed.

Lemma no_header_no_reconciler_witness :
  init sample_ledger
    (Some [[[[Some "Account"; Some "Name"]; [Some "123"; Some "ACME"]]];
           [[[Some "01/01/2024"; None; Some "DEPOSIT"; Some "J100"; None; None;
              Some "100.00"];
             [Some "02/01/2024"; None; Some "DEPOSIT"; Some "J200"; None; None;
              Some "200.00"]]]])
  = Raise (KeyError "journal_number").
Proof.
  refine (proj2 (no_header_no_reconciler sample_ledger _ _)).
  intros p t [<-|[<-|[]]] [<-|[]]; vm_compute; reflexivity.
Defined.

Lemma parse_row_fields (row : trow) (t : txn) :
  parse_row row = Some t ->
  date t = field row 0 "" /\ journal_number t = field row 3 "" /\
  description t = field row 2 "" /\
  journal_number t <> "None" /\
  (3 <= String.length (journal_number t))%nat /\
  F64.ltb F64.zero (amount t) = true.
Proof.
  unfold parse_row. destruct (length row <? 5)%nat; [discriminate|].
  destruct (existsb _ exclusion_keywords); [discriminate|].
  unfold parse_row_body. destruct (row !! 0%nat) as [c0|] eqn:H0; [|discriminate].
  simpl. rewrite (field_0 row c0 H0).
  destruct (parse_amount_ok (Some (field row 6 "0"))) as (a & Ha).
  destruct (Str.is_empty (field row 3 "")) eqn:He; simpl; [discriminate|].
  destruct (Str.eqb (field row 3 "") "None") eqn:Hn; simpl; [discriminate|].
  destruct (Nat.ltb_spec (String.length (field row 3 "")) 3) as [Hl|Hl]; simpl;
    [discriminate|].
  rewrite Ha. simpl. destruct (F64.ltb F64.zero a) eqn:Hpos; simpl; [|discriminate].
  intros H. injection H as <-. simpl. repeat split; try assumption.
  apply String.eqb_neq. exact Hn.
Qed.

Lemma strip_field (row : trow) (i : nat) :
  Str.strip (field row i "") = field row i "".
Proof.
  unfold field. destruct (row !! i) as [c|]; [|reflexivity].
  destruct (truthy c); [apply strip_idem | reflexivity].
Qed.

(** X12. Every transaction the constructor keeps has a date, a key and a
    description without surrounding whitespace, a key of at least 3
    characters that is not "None", and a strictly positive amount; the
    second trimming of the keys in the constructor changes nothing, so
    [bank_df] is the extracted list itself. *)
Theorem extracted_transactions (ledger : list Ledger.row) (pdf : option (list page))
    (self : BankReconciliation) :
  init ledger pdf = Ok self ->
  (exists pages, pdf = Some pages /\ bank_df self = transactions_of pages) /\
  bank_df self <> [] /\
  forall t, In t (bank_df self) ->
    Str.strip (date t) = date t /\
    Str.strip (journal_number t) = journal_number t /\
    Str.strip (description t) = description t /\
    journal_number t <> "None" /\
    (3 <= String.length (journal_number t))%nat /\
    F64.ltb F64.zero (amount t) = true.
Proof.
  intros Hinit.
  assert (Hall : forall pages t, In t (transactions_of pages) ->
            Str.strip (date t) = date t /\
            Str.strip (journal_number t) = journal_number t /\
            Str.strip (description t) = description t /\
            journal_number t <> "None" /\
            (3 <= String.length (journal_number t))%nat /\
            F64.ltb F64.zero (amount t) = true).
  { intros pages t Ht. apply transactions_of_rows in Ht as (row & Hrow).
    apply parse_row_fields in Hrow as (Hd & Hj & Hp & Hn & Hl & Ha).
    repeat split; try assumption; rewrite ?Hd, ?Hj, ?Hp; apply strip_field. }
  assert (Hne : bank_df self <> []).
  { unfold init, parse_bank_pdf in Hinit. destruct pdf as [pages|]; [|discriminate].
    simpl in Hinit. unfold getitem, DataFrame_of_records in Hinit; simpl in Hinit.
    destruct (transactions_of pages) as [|t0 l]; [discriminate Hinit|].
    simpl in Hinit. injection Hinit as <-. simpl. discriminate. }
  destruct (init_ok _ _ _ Hinit) as (pages & Hpdf & _ & _ & Hb).
  assert (Hid : map strip_journal (transactions_of pages) = transactions_of pages).
  { rewrite <- (map_id (transactions_of pages)) at 2. apply map_ext_in.
    intros t Ht. destruct (Hall pages t Ht) as (_ & Hj & _).
    destruct t as [d j p a]. unfold strip_journal. simpl in *. rewrite Hj. reflexivity. }
  rewrite Hid in Hb. split; [exists pages; auto|]. split; [exact Hne|].
  intros t Ht. rewrite Hb in Ht. apply (Hall pages t Ht).
Qed.

Lemma extracted_transactions_witness : bank_df sample_self <> [].
Proof.
  refine (proj1 (proj2 (extracted_transactions sample_ledger sample_pdf sample_self _))).
  vm_compute. reflexivity.
Defined.

(** ** More on the amount parser *)

Lemma replace_char_cons (c d : ascii) (s : string) :
  Str.replace (String c "") "" (String d s)
  = if Ascii.eqb c d then Str.replace (String c "") "" s
    else String d (Str.replace (String c "") "" s).
Proof.
  unfold Str.replace. simpl. destruct (Ascii.eqb c d); reflexivity.
Qed.

Lemma replace_char_app (c : ascii) (x y : string) :
  Str.replace (String c "") "" (x +:+ y)
  = Str.replace (String c "") "" x +:+ Str.replace (String c "") "" y.
Proof.
  induction x as [|d x IH]; [reflexivity|].
  rewrite append_cons, !replace_char_cons, IH.
  destruct (Ascii.eqb c d); reflexivity.
Qed.

(** X13. A comma anywhere in the text does not change the amount that
    [parse_amount] returns. *)
Theorem comma_ignored (a b : string) :
  parse_amount (Some (a +:+ "," +:+ b)) = parse_amount (Some (a +:+ b)).
Proof.
  unfold parse_amount.
  replace (Str.is_empty (a +:+ "," +:+ b)) with false by (destruct a; reflexivity).
  assert (H : Str.replace "," "" (a +:+ "," +:+ b) = Str.replace "," "" (a +:+ b)).
  { rewrite !(replace_char_app ","%char). reflexivity. }
  rewrite H. destruct (Str.is_empty (a +:+ b)) eqn:E; [|reflexivity].
  destruct a; [|discriminate E]. destruct b; [|discriminate E].
  vm_compute. reflexivity.
Qed.

Lemma of_uint_acc_value (d : Decimal.uint) (acc : positive) :
  Zpos (Pos.of_uint_acc d acc) = uint_value d (Zpos acc).
Proof.
  revert acc. induction d; intros acc; simpl; [reflexivity| ..];
    rewrite IHd; f_equal; lia.
Qed.

Lemma of_uint_value (d : Decimal.uint) : Z.of_N (Pos.of_uint d) = uint_value d 0.
Proof.
  induction d; simpl; [reflexivity | exact IHd | ..];
    rewrite of_uint_acc_value; reflexivity.
Qed.

Lemma digits_string_of_uint (d : Decimal.uint) (acc : Z) :
  digits_from acc (NilEmpty.string_of_uint d) = uint_value d acc.
Proof.
  revert acc. induction d; intros acc; simpl; [reflexivity| ..];
    unfold digits_from in *; simpl; rewrite IHd; f_equal; lia.
Qed.

Lemma all_digits_uint (d : Decimal.uint) : all_digits (NilEmpty.string_of_uint d) = true.
Proof. induction d; simpl; auto. Qed.


Lemma of_N_digits (n : N) :
  all_digits (Str.of_N n) = true /\ Str.is_empty (Str.of_N n) = false /\
  Str.digits_value (Str.of_N n) = Z.of_N n.
Proof.
  unfold Str.of_N.
  assert (Hv : uint_value (N.to_uint n) 0 = Z.of_N n).
  { rewrite <- of_uint_value.
    change (Pos.of_uint (N.to_uint n)) with (N.of_uint (N.to_uint n)).
    rewrite DecimalN.Unsigned.of_to. reflexivity. }
  rewrite <- Hv. generalize (N.to_uint n) as d. intros d. repeat split.
  - destruct d; try reflexivity; simpl; apply all_digits_uint.
  - destruct d; reflexivity.
  - destruct d; try reflexivity;
      apply (digits_string_of_uint _ 0).
Qed.

Lemma digit_facts (c : ascii) :
  Str.isdigit c = true ->
  Str.isspace c = false /\ Str.upper_char c = c /\
  Ascii.eqb c "_" = false /\ Ascii.eqb c "-" = false /\ Ascii.eqb c "+" = false /\
  Ascii.eqb c "I" = false /\ Ascii.eqb c "N" = false /\
  Ascii.eqb "," c = false /\ Ascii.eqb "N" c = false /\ Ascii.eqb "B" c = false /\
  Ascii.eqb "_" c = false.
Proof.
  destruct c as [[] [] [] [] [] [] [] []]; intros H;
    solve [discriminate H | repeat split].
Qed.

Lemma replace_absent (c0 : ascii) (rest new s : string) :
  Str.isdigit c0 = false -> all_digits s = true ->
  Str.replace (String c0 rest) new s = s.
Proof.
  intros Hc. unfold Str.replace. induction s as [|d s IH]; [reflexivity|].
  intros H. simpl in H. apply andb_true_iff in H as [Hd Hs].
  simpl. destruct (Ascii.eqb c0 d) eqn:E.
  - apply Ascii.eqb_eq in E. congruence.
  - simpl. rewrite (IH Hs). reflexivity.
Qed.

Lemma rstrip_digits (s : string) : all_digits s = true -> Str.rstrip s = s.
Proof.
  induction s as [|d s IH]; [reflexivity|]. intros H. simpl in H.
  apply andb_true_iff in H as [Hd Hs]. simpl. rewrite (IH Hs).
  destruct (digit_facts d Hd) as (-> & _). rewrite andb_false_r. reflexivity.
Qed.

Lemma strip_digits (s : string) : all_digits s = true -> Str.strip s = s.
Proof.
  intros H. unfold Str.strip. rewrite lstrip_id; [apply rstrip_digits, H|].
  destruct s as [|d s]; [reflexivity|]. simpl in *.
  apply andb_true_iff in H as [Hd _]. destruct (digit_facts d Hd) as (-> & _).
  reflexivity.
Qed.

Lemma underscores_digits (prev : ascii) (s : string) :
  all_digits s = true -> F64.underscores_ok prev s = true.
Proof.
  revert prev. induction s as [|d s IH]; intros prev H; [reflexivity|].
  simpl in H. apply andb_true_iff in H as [Hd Hs]. simpl.
  destruct (digit_facts d Hd) as (_ & _ & -> & _). simpl. apply IH, Hs.
Qed.

Lemma upper_digits (s : string) : all_digits s = true -> Str.upper s = s.
Proof.
  induction s as [|d s IH]; [reflexivity|]. intros H. simpl in H.
  apply andb_true_iff in H as [Hd Hs]. simpl. rewrite (IH Hs).
  destruct (digit_facts d Hd) as (_ & -> & _). reflexivity.
Qed.

Lemma span_all_digits (s : string) : all_digits s = true -> Str.span_digits s = (s, "").
Proof.
  induction s as [|d s IH]; [reflexivity|]. intros H. simpl in H.
  apply andb_true_iff in H as [Hd Hs]. simpl. rewrite Hd, (IH Hs). reflexivity.
Qed.

Lemma append_empty_r (s : string) : s +:+ "" = s.
Proof. induction s as [|c s IH]; [reflexivity|]. rewrite append_cons, IH. reflexivity. Qed.

(** [float] on a text of decimal digits. *)
Lemma of_string_digits (s : string) :
  all_digits s = true -> Str.is_empty s = false ->
  F64.of_string s = Ok (F64.of_Z (Str.digits_value s)).
Proof.
  intros Hd He. unfold F64.of_string.
  rewrite (strip_digits s Hd), (underscores_digits "x" s Hd). simpl negb. cbv iota.
  rewrite (replace_absent "_" "" "" s eq_refl Hd).
  destruct s as [|c r]; [discriminate He|].
  pose proof Hd as Hd'. simpl in Hd'. apply andb_true_iff in Hd' as [Hc Hr].
  destruct (digit_facts c Hc) as (_ & _ & _ & Hm & Hp & Hi & Hn & _).
  assert (Hsign : match String c r with
                  | String "-" r0 => (true, r0)
                  | String "+" r0 => (false, r0)
                  | _ => (false, String c r)
                  end = (false, String c r)).
  { clear -Hc. destruct c as [[] [] [] [] [] [] [] []];
      solve [discriminate Hc | reflexivity]. }
  rewrite Hsign, (upper_digits _ Hd).
  replace (Str.eqb (String c r) "INF") with false
    by (unfold Str.eqb; simpl; rewrite Hi; reflexivity).
  replace (Str.eqb (String c r) "INFINITY") with false
    by (unfold Str.eqb; simpl; rewrite Hi; reflexivity).
  replace (Str.eqb (String c r) "NAN") with false
    by (unfold Str.eqb; simpl; rewrite Hn; reflexivity).
  simpl orb. cbv iota. rewrite (span_all_digits _ Hd). simpl.
  change (String c r ++ "")%string with (String c r +:+ "").
  rewrite append_empty_r.
  assert (Hnn : 0 <= Str.digits_value (String c r)).
  { unfold Str.digits_value.
    assert (G : forall l a, 0 <= a ->
              0 <= fold_left (fun acc c => 10 * acc + Z.of_nat (Str.code c - 48)) l a).
    { induction l as [|x l IH]; intros a Ha; simpl; [exact Ha | apply IH; lia]. }
    apply G. lia. }
  unfold F64.of_decimal, F64.of_Z.
  destruct (Str.digits_value (String c r)) as [|p|p]; [reflexivity | | lia].
  simpl Z.sub. cbv iota. rewrite Z.pow_0_r, Z.mul_1_r. reflexivity.
Qed.

(** X14. The decimal text of a whole number is parsed to the double
    nearest to that number: [parse_amount(str(n)) == float(n)]. *)
Theorem whole_number_round_trip (n : N) :
  parse_amount (Some (Str.of_N n)) = Ok (F64.of_Z (Z.of_N n)).
Proof.
  destruct (of_N_digits n) as (Hd & He & Hv).
  unfold parse_amount. rewrite He.
  rewrite (replace_absent "," "" "" _ eq_refl Hd),
          (replace_absent "N" "u." "" _ eq_refl Hd),
          (replace_absent "B" "TN" "" _ eq_refl Hd),
          (strip_digits _ Hd), (of_string_digits _ Hd He), Hv.
  reflexivity.
Qed.

(** ** Accuracy at its ends *)

Lemma div_pos_diag (p : positive) : F64.div_pos false p p = F64.one.
Proof.
  unfold F64.div_pos, SFdiv_core_binary.
  replace (Zdigits2 (Zpos p) + 0 - (Zdigits2 (Zpos p) + 0)) with 0 by lia.
  change (Z.min (fexp F64.prec F64.emax 0) (0 - 0)) with (-53).
  change (0 - 0 - -53) with 53.
  cbv iota beta.
  rewrite Z.shiftl_mul_pow2 by lia.
  assert (H : Z.div_eucl (Zpos p * 2 ^ 53) (Zpos p) = (2 ^ 53, 0)).
  { pose proof (Z.div_eucl_eq (Zpos p * 2 ^ 53) (Zpos p) ltac:(lia)) as He.
    pose proof (Z.mod_pos_bound (Zpos p * 2 ^ 53) (Zpos p) ltac:(lia)) as Hb.
    unfold Z.modulo in Hb.
    destruct (Z.div_eucl (Zpos p * 2 ^ 53) (Zpos p)) as [q r].
    assert (r = 0 /\ q = 2 ^ 53) as [-> ->]; [|reflexivity].
    assert (Hq : Zpos p * (2 ^ 53 - q) = r) by lia.
    assert (2 ^ 53 - q = 0) by nia. split; lia. }
  rewrite H. unfold new_location. 
  destruct (Z.even (Zpos p)); vm_compute; reflexivity.
Qed.

(** X15. With at least one filtered entry, the accuracy reads 100.0% when
    every entry is matched and 0.0% when none is. *)
Theorem accuracy_ends (s : stats) :
  (0 < total_entries s)%N ->
  (matched s = total_entries s -> accuracy s = Ok "100.0%") /\
  (matched s = 0%N -> accuracy s = Ok "0.0%").
Proof.
  intros Hpos. unfold accuracy, F64.truediv.
  replace (0 <? total_entries s)%N with true by (symmetry; apply N.ltb_lt; exact Hpos).
  replace (total_entries s =? 0)%N with false by (symmetry; apply N.eqb_neq; lia).
  split; intros ->.
  - destruct (total_entries s) as [|p]; [lia|]. unfold F64.quotient.
    rewrite div_pos_diag. vm_compute. reflexivity.
  - destruct (total_entries s) as [|p]; [lia|]. vm_compute. reflexivity.
Qed.

Lemma accuracy_ends_witness : accuracy all_matched_stats = Ok "100.0%".
Proof.
  refine (proj1 (accuracy_ends all_matched_stats _) _).
  - reflexivity.
  - reflexivity.
Defined.

(** ** The metadata log *)





(** ** The endpoints *)


(** ** The preview of an upload *)

Lemma fold_add {A} (f : A -> nat) (l : list A) (n : nat) :
  fold_left (fun n x => (n + f x)%nat) l n = (n + list_sum (map f l))%nat.
Proof.
  revert n. induction l as [|x l IH]; intros n; simpl; [lia|].
  rewrite IH. lia.
Qed.

Lemma analyze_pdf_count_sum (pages : list page) :
  analyze_pdf_count pages
  = list_sum (map (fun p => list_sum (map analyze_table p)) pages).
Proof.
  unfold analyze_pdf_count.
  assert (H : forall n, fold_left (fun n p =>
                 fold_left (fun n t => (n + analyze_table t)%nat) p n) pages n
              = (n + list_sum (map (fun p => list_sum (map analyze_table p)) pages))%nat).
  { induction pages as [|p pages IH]; intros n; simpl; [lia|].
    rewrite IH, fold_add. lia. }
  apply (H 0%nat).
Qed.

Lemma transactions_of_length (pages : list page) :
  length (transactions_of pages)
  = list_sum (map (fun p => list_sum (map (fun t => length (parse_table t)) p)) pages).
Proof.
  unfold transactions_of. rewrite length_concat, map_map. f_equal.
  apply map_ext. intros p. rewrite length_concat, map_map. reflexivity.
Qed.

Lemma omap_filter_length {A B} (f : A -> option B) (p : A -> bool) (l : list A) :
  (forall x y, f x = Some y -> p x = true) ->
  (length (omap f l) <= length (List.filter p l))%nat.
Proof.
  intros H. induction l as [|x l IH]; [reflexivity|].
  change (omap f (x :: l))
    with (match f x with Some y => y :: omap f l | None => omap f l end).
  cbn [List.filter]. destruct (f x) as [y|] eqn:E.
  - rewrite (H x y E). cbn [length]. lia.
  - destruct (p x); cbn [length]; lia.
Qed.

Lemma filter_drop_length {A} (p : A -> bool) (k : nat) (l : list A) :
  (length (List.filter p (drop k l)) <= length (List.filter p l))%nat.
Proof.
  rewrite <- (take_drop k l) at 2. rewrite List.filter_app, length_app. lia.
Qed.

Lemma parse_row_no_keyword (row : trow) (t : txn) :
  parse_row row = Some t -> no_keyword row = true.
Proof.
  unfold parse_row, no_keyword. destruct (length row <? 5)%nat; [discriminate|].
  destruct (existsb _ exclusion_keywords); [discriminate | reflexivity].
Qed.

Lemma parse_table_bound (t : table) :
  (length (parse_table t) <= analyze_table t)%nat.
Proof.
  unfold parse_table, analyze_table.
  destruct (Nat.ltb_spec (length t) 2) as [Hl|Hl].
  - simpl. lia.
  - replace (1 <? length t)%nat with true by (symmetry; apply Nat.ltb_lt; lia).
    destruct (header_idx t) as [idx|]; [|simpl; lia].
    etrans; [apply (omap_filter_length parse_row no_keyword), parse_row_no_keyword|].
    change (S idx) with (1 + idx)%nat. rewrite <- drop_drop.
    apply (filter_drop_length no_keyword idx (drop 1 t)).
Qed.

Lemma list_sum_le {A} (f g : A -> nat) (l : list A) :
  (forall x, In x l -> (f x <= g x)%nat) ->
  (list_sum (map f l) <= list_sum (map g l))%nat.
Proof.
  induction l as [|x l IH]; intros H; [reflexivity|].
  simpl. specialize (H x (or_introl eq_refl)) as Hx.
  assert (list_sum (map f l) <= list_sum (map g l))%nat
    by (apply IH; intros y Hy; apply H; right; exact Hy).
  lia.
Qed.

(** X19. The transaction count that [analyze_file] shows for a statement
    is never less than the number of transactions the reconciler
    extracts from it; when the preview reports no table, the extraction
    gives nothing. *)
Theorem preview_count_bound (file_size : N) (excel : Py (list string * list Ledger.row))
    (pages : list page) :
  exists tables_found transaction_count,
    analyze_file file_size "pdf" excel (Some pages)
    = PdfAnalysis true (len pages) tables_found transaction_count
        (file_size_str file_size) /\
    (len (transactions_of pages) <= transaction_count)%N /\
    (tables_found = 0%N -> transactions_of pages = []).
Proof.
  assert (Hb : (length (transactions_of pages) <= analyze_pdf_count pages)%nat).
  { rewrite transactions_of_length, analyze_pdf_count_sum.
    apply list_sum_le. intros p _. apply list_sum_le. intros t _.
    apply parse_table_bound. }
  eexists _, _. split; [reflexivity|]. split.
  - unfold len. lia.
  - destruct (Nat.ltb_spec 0 (analyze_pdf_count pages)) as [Hpos|Hz]; [discriminate|].
    intros _. destruct (transactions_of pages); [reflexivity | simpl in Hb; lia].
Qed.

(** X20. For a ledger that has the column [ChequeDDNo], the number of
    valid entries that [analyze_file] shows is the [total_entries] of the
    report made from it, whatever the statement. *)
Theorem preview_valid_entries (file_size : N) (columns : list string)
    (df : list Ledger.row) (pdf pdf' : option (list page)) (self : BankReconciliation) :
  In "ChequeDDNo" columns ->
  init df pdf' = Ok self ->
  analyze_file file_size "excel" (Ok (columns, df)) pdf
  = ExcelAnalysis true (len df) columns true (existsb (Str.eqb "Amount") columns)
      (total_entries (generate_report self)) (file_size_str file_size).
Proof.
  intros Hin Hinit. destruct (init_ok _ _ _ Hinit) as (_ & _ & _ & Hd & _).
  unfold analyze_file. simpl Str.eqb. cbv iota.
  assert (Hc : existsb (Str.eqb "ChequeDDNo") columns = true).
  { apply existsb_exists. exists "ChequeDDNo". split; [exact Hin|].
    apply String.eqb_refl. }
  rewrite Hc. unfold generate_report, compute_stats, len; simpl.
  rewrite Hd, length_map. reflexivity.
Qed.

Lemma preview_valid_entries_witness :
  analyze_file 2048 "excel" (Ok (["ChequeDDNo"; "Amount"], sample_ledger)) None
  = ExcelAnalysis true 3 ["ChequeDDNo"; "Amount"] true true
      (total_entries (generate_report sample_self)) "2.00 KB".
Proof.
  refine (preview_valid_entries 2048 ["ChequeDDNo"; "Amount"] sample_ledger None
            sample_pdf sample_self _ _).
  - left. reflexivity.
  - vm_compute. reflexivity.
Defined.

(** ** What the TOTAL pass leaves alone *)

Lemma find_cell_value_cons (ws : worksheet) (r0 c0 r c : nat) :
  find_cell ws r0 c0 = None ->
  default XNone (find_cell (((r0, c0), XNone) :: ws) r c) = default XNone (find_cell ws r c).
Proof.
  intros H. simpl. destruct ((r0 =? r) && (c0 =? c))%nat eqn:E; [|reflexivity].
  apply andb_true_iff in E as [Er Ec].
  apply Nat.eqb_eq in Er. apply Nat.eqb_eq in Ec. subst. rewrite H. reflexivity.
Qed.

Lemma find_amount_col_cells (cols : list nat) (ws : worksheet) (r c : nat) :
  cell_value (find_amount_col cols ws).1 r c = cell_value ws r c.
Proof.
  revert ws. induction cols as [|col cols IH]; intros ws; [reflexivity|].
  simpl. unfold get_cell.
  destruct (find_cell ws 1 col) as [v|] eqn:E.
  - destruct v as [|h|x]; try apply IH.
    destruct (Str.eqb h "Amount"); [reflexivity | apply IH].
  - rewrite IH. unfold cell_value. apply find_cell_value_cons, E.
Qed.

(** X21. The pass that adds the TOTAL rows never changes a cell of a
    sheet: whatever the sheet, every cell up to its last row reads after
    the pass as it did before. *)
Theorem totals_keep_cells (name : sheet_name) (ws ws' : worksheet) (r c : nat) :
  add_total name ws = Ok ws' ->
  (r <= max_row ws)%nat ->
  cell_value ws' r c = cell_value ws r c.
Proof.
  unfold add_total. intros H Hr.
  destruct (bool_decide (name = Summary)); [injection H as <-; reflexivity|].
  destruct (bool_decide (name ∈ sheets_with_totals) && (1 <? max_row ws)%nat);
    [|injection H as <-; reflexivity].
  pose proof (find_amount_col_cells (seq 1 (max_column ws)) ws r c) as Hcells.
  destruct (find_amount_col (seq 1 (max_column ws)) ws) as [ws1 [idx|]];
    [|injection H as <-; exact Hcells].
  simpl in Hcells.
  destruct (get_column_letter idx) as [letter|e]; [|discriminate H].
  cbn [mbind Py_bind] in H. injection H as <-.
  rewrite <- Hcells. unfold cell_value, set_value. simpl.
  replace (max_row ws + 1 =? r)%nat with false by (symmetry; apply Nat.eqb_neq; lia).
  reflexivity.
Qed.

Lemma totals_keep_cells_witness :
  cell_value priced_sheet_totalled 2 4 = cell_value priced_sheet 2 4 /\
  cell_value priced_sheet 2 4 = XNum (F64.of_Z 100) /\
  cell_value priced_sheet_totalled 3 4 = XStr "=SUM(D2:D2)".
Proof.
  split; [|split; vm_compute; reflexivity].
  refine (totals_keep_cells BankStatement priced_sheet priced_sheet_totalled 2 4 _ _).
  - vm_compute. reflexivity.
  - vm_compute. lia.
Defined.
